(** * botopen: the membership gate of [main.py]

    A shallow embedding of the Telegram "join the channel first" gate:
    the module-level configuration read from the environment, the
    predicate [is_joined], the prompt builder [send_join_prompt] and the
    two handlers [start_with_gate] and [on_recheck].

    Conventions of the embedding.
    - A Python [str] is a [string] holding its UTF-8 bytes.
      [str.strip] removes every Unicode white space character, matched
      on its bytes.  [str.isdigit] and [int], which depend on the
      Unicode tables and on limits of the interpreter, are parameters
      of the module body.
    - A coroutine is a computation in the monad [M]: it reads the
      answers of the Telegram servers from a [World], appends every API
      call it makes to a trace, and either returns or raises.  An
      [await] is a sequence point, so it is the monad's bind.
    - Module-level globals are the fields of [Config]. *)

From Stdlib Require Import ZArith Ascii String List.
From stdpp Require Import base strings gmap list.

Open Scope string_scope.
Open Scope Z_scope.

(** ** Python string operations *)

Module PyStr.

Definition LF : string := String (ascii_of_nat 10) "".

(** [bool(s)] for a string: the empty string is falsy. *)
Definition truthy (s : string) : bool :=
  match s with
  | "" => false
  | String _ _ => true
  end.

(** The string of the given bytes. *)
Fixpoint bytes (l : list nat) : string :=
  match l with
  | [] => ""
  | n :: l' => String (ascii_of_nat n) (bytes l')
  end.

(** [c.isspace()] for a character of one byte: TAB, LF, VT, FF, CR, the
    four separators FS, GS, RS, US and the space. *)
Definition isspace (c : ascii) : bool :=
  let n := nat_of_ascii c in
  ((9 <=? n)%nat && (n <=? 13)%nat)
  || ((28 <=? n)%nat && (n <=? 32)%nat).

(** The characters [str.strip()] removes, each as its UTF-8 bytes: the
    ten of one byte, then U+0085, U+00A0, U+1680, U+2000 to U+200A,
    U+2028, U+2029, U+202F, U+205F and U+3000. *)
Definition whitespace : list string :=
  map bytes
    ([ [9]; [10]; [11]; [12]; [13]; [28]; [29]; [30]; [31]; [32];
       [194; 133]; [194; 160]; [225; 154; 128];
       [226; 128; 128]; [226; 128; 129]; [226; 128; 130]; [226; 128; 131];
       [226; 128; 132]; [226; 128; 133]; [226; 128; 134]; [226; 128; 135];
       [226; 128; 136]; [226; 128; 137]; [226; 128; 138];
       [226; 128; 168]; [226; 128; 169]; [226; 128; 175];
       [226; 129; 159]; [227; 128; 128] ])%nat.

(** [s] without its prefix [p], when it has it. *)
Fixpoint drop_prefix (p s : string) : option string :=
  match p with
  | "" => Some s
  | String c p' =>
      match s with
      | "" => None
      | String d s' => if Ascii.eqb c d then drop_prefix p' s' else None
      end
  end.

(** [s] without the first of the [tokens] it starts with. *)
Fixpoint drop_token (tokens : list string) (s : string) : option string :=
  match tokens with
  | [] => None
  | t :: tokens' =>
      match drop_prefix t s with
      | Some s' => Some s'
      | None => drop_token tokens' s
      end
  end.

(** At most [n] leading tokens removed. *)
Fixpoint drop_tokens (n : nat) (tokens : list string) (s : string) : string :=
  match n with
  | O => s
  | S n' =>
      match drop_token tokens s with
      | Some s' => drop_tokens n' tokens s'
      | None => s
      end
  end.

(** [s.lstrip()]: every white space character holds a byte, so
    [length s] rounds remove all the leading white space there is. *)
Definition lstrip (s : string) : string :=
  drop_tokens (String.length s) whitespace s.

(** [s.rstrip()]: the same from the end, on the reversed bytes.  No
    UTF-8 sequence ends another, so a white space character ends [s]
    exactly when its bytes do. *)
Definition rstrip (s : string) : string :=
  String.rev
    (drop_tokens (String.length s) (map String.rev whitespace) (String.rev s)).

(** [s.strip()] *)
Definition strip (s : string) : string := rstrip (lstrip s).

Fixpoint mem_char (c : ascii) (chars : string) : bool :=
  match chars with
  | "" => false
  | String d chars' => Ascii.eqb c d || mem_char c chars'
  end.

(** [s.lstrip(chars)] *)
Fixpoint lstrip_chars (chars s : string) : string :=
  match s with
  | "" => ""
  | String c s' => if mem_char c chars then lstrip_chars chars s' else s
  end.

Definition lower_char (c : ascii) : ascii :=
  let n := nat_of_ascii c in
  if (65 <=? n)%nat && (n <=? 90)%nat then ascii_of_nat (n + 32) else c.

(** [s.lower()] on the letters A to Z, which is all that comparing the
    result with the word true needs: no character outside ASCII lowers
    to one of its letters. *)
Fixpoint lower (s : string) : string :=
  match s with
  | "" => ""
  | String c s' => String (lower_char c) (lower s')
  end.

(** [s.startswith(p)] *)
Fixpoint startswith (s p : string) {struct p} : bool :=
  match p with
  | "" => true
  | String c p' =>
      match s with
      | "" => false
      | String d s' => Ascii.eqb d c && startswith s' p'
      end
  end.

(** [s[1:]] for a string whose first character is one byte. *)
Definition tail (s : string) : string :=
  match s with
  | "" => ""
  | String _ s' => s'
  end.

(** [sub in s] *)
Definition contains (sub s : string) : Prop :=
  exists pre post, s = pre +:+ sub +:+ post.

End PyStr.

(** ** Exceptions *)

(** What [except TelegramError as e] can observe of the exception:
    [type(e).__name__] and [str(e)]. *)
Record TelegramError := mkTelegramError {
  type_name : string;
  message : string
}.

Inductive exn :=
| ETelegram (e : TelegramError)
| EAttribute (msg : string)
| ERuntime (msg : string)
| EValue (msg : string).

(** ** Module-level configuration *)

(** [REQUIRED_CHAT] is an [int] or a [str]. *)
Inductive chat_ref :=
| ChatInt (n : Z)
| ChatStr (s : string).

Record Config := mkConfig {
  BOT_TOKEN : string;
  REQUIRED_CHAT_RAW : string;
  JOIN_URL : string;
  SILENT_FOR_NOT_JOINED : bool;
  REQUIRED_CHAT : chat_ref
}.

(** [os.getenv(key, default)]; [environ] is the process environment
    after [load_dotenv()]. *)
Definition getenv (environ : gmap string string) (key default : string)
  : string :=
  match environ !! key with
  | Some v => v
  | None => default
  end.

Definition BTN_RECHECK : string := "recheck_join".

(** ** The built-ins [str.isdigit] and [int] *)

(** Decimal digits of the ASCII range, for the stand-in below. *)
Module AsciiDigits.

Definition is_digit_char (c : ascii) : bool :=
  let n := nat_of_ascii c in (48 <=? n)%nat && (n <=? 57)%nat.

Fixpoint all_digits (s : string) : bool :=
  match s with
  | "" => true
  | String c s' => is_digit_char c && all_digits s'
  end.

Definition isdigit (s : string) : bool := PyStr.truthy s && all_digits s.

Fixpoint digits_value (acc : Z) (s : string) : Z :=
  match s with
  | "" => acc
  | String c s' =>
      digits_value (10 * acc + Z.of_nat (nat_of_ascii c - 48)) s'
  end.

Definition invalid_literal (s : string) : string + Z :=
  inl ("invalid literal for int() with base 10: '" +:+ s +:+ "'").

Definition int (s : string) : string + Z :=
  match s with
  | String "-" s' =>
      if isdigit s' then inr (- digits_value 0 s') else invalid_literal s
  | String "+" s' =>
      if isdigit s' then inr (digits_value 0 s') else invalid_literal s
  | _ => if isdigit s then inr (digits_value 0 s) else invalid_literal s
  end.

End AsciiDigits.

(** Which characters [str.isdigit] takes for digits, which strings
    [int] reads and what it answers are decided by the interpreter: by
    its Unicode tables, by its limit on the number of digits and by the
    way it cuts its error messages.  The module body is therefore
    modelled over any pair of such functions; [int] returns the integer
    or the message of its [ValueError]. *)
Module Builtins.
Record t := mk {
  isdigit : string -> bool;
  int : string -> string + Z
}.
End Builtins.

(** A stand-in to run examples with: it answers as CPython does on
    strings of at most 200 ASCII minus signs and digits. *)
Definition ascii_builtins : Builtins.t :=
  Builtins.mk AsciiDigits.isdigit AsciiDigits.int.

(** Two facts about the built-ins that some statements rely on.  A
    string that starts with an ASCII character other than a digit is not
    [isdigit]. *)
Definition isdigit_needs_digits (py : Builtins.t) : Prop :=
  forall c s,
    (nat_of_ascii c < 128)%nat ->
    AsciiDigits.is_digit_char c = false ->
    Builtins.isdigit py (String c s) = false.


(** The module body up to [BTN_RECHECK], over the built-ins [py]:
    [inl e] is the exception that escapes the module, so that [main()]
    is never reached; [inr cfg] are the globals the handlers run with. *)
Definition module_init (py : Builtins.t) (environ : gmap string string)
  : exn + Config :=
  let bot_token := PyStr.strip (getenv environ "BOT_TOKEN" "") in
  let required_chat_raw := PyStr.strip (getenv environ "REQUIRED_CHAT" "") in
  let join_url := PyStr.strip (getenv environ "JOIN_URL" "") in
  let silent :=
    String.eqb
      (PyStr.lower (PyStr.strip (getenv environ "SILENT_FOR_NOT_JOINED" "false")))
      "true" in
  if negb (PyStr.truthy bot_token) then
    inl (ERuntime "BOT_TOKEN 未设置：请在 .env 配置 BOT_TOKEN=xxx")
  else if negb (PyStr.truthy required_chat_raw) then
    inl (ERuntime
           "REQUIRED_CHAT 未设置：请在 .env 配置 REQUIRED_CHAT=@xxx 或 -100xxx")
  else if Builtins.isdigit py (PyStr.lstrip_chars "-" required_chat_raw) then
    match Builtins.int py required_chat_raw with
    | inr n => inr (mkConfig bot_token required_chat_raw join_url silent
                      (ChatInt n))
    | inl msg => inl (EValue msg)
    end
  else
    inr (mkConfig bot_token required_chat_raw join_url silent
           (ChatStr required_chat_raw)).

(** The process starts, that is reaches [main()], only when the module
    body raised nothing. *)
Definition process_starts (py : Builtins.t) (environ : gmap string string)
  : bool :=
  match module_init py environ with
  | inl _ => false
  | inr _ => true
  end.

(** ** Membership statuses *)

(** [telegram.constants.ChatMemberStatus] of python-telegram-bot, a
    string enumeration: the member names and the values the Bot API
    sends.  Note the two whose name and value differ. *)
Module ChatMemberStatus.
Definition ADMINISTRATOR : string := "administrator".
Definition OWNER : string := "creator".
Definition BANNED : string := "kicked".
Definition LEFT : string := "left".
Definition MEMBER : string := "member".
Definition RESTRICTED : string := "restricted".
End ChatMemberStatus.

(** The status names of the specification's data model. *)
Inductive MembershipStatus :=
| member | administrator | owner | restricted | left | kicked.

Definition status_value (st : MembershipStatus) : string :=
  match st with
  | member => ChatMemberStatus.MEMBER
  | administrator => ChatMemberStatus.ADMINISTRATOR
  | owner => ChatMemberStatus.OWNER
  | restricted => ChatMemberStatus.RESTRICTED
  | left => ChatMemberStatus.LEFT
  | kicked => ChatMemberStatus.BANNED
  end.

Definition joined_statuses : gset string :=
  {[ ChatMemberStatus.MEMBER;
     ChatMemberStatus.ADMINISTRATOR;
     ChatMemberStatus.OWNER;
     ChatMemberStatus.RESTRICTED ]}.

Definition is_joined (status : string) : bool :=
  bool_decide (status ∈ joined_statuses).

(** ** Telegram objects *)

Module User.
Record t := mk { id : Z }.
End User.

Module Chat.
Record t := mk { id : Z }.
End Chat.

Module Message.
Record t := mk { message_id : Z; chat : Chat.t }.
End Message.

Module CallbackQuery.
Record t := mk {
  id : string;
  from_user : User.t;
  message : option Message.t;
  data : string
}.
End CallbackQuery.

Module Update.
Record t := mk {
  effective_user : option User.t;
  effective_chat : option Chat.t;
  message : option Message.t;
  callback_query : option CallbackQuery.t
}.
End Update.

Module Bot.
Record t := mk { token : string }.
End Bot.

Module Context.
Record t := mk { bot : Bot.t }.
End Context.

Module ChatMember.
Record t := mk { status : string }.
End ChatMember.

Module InlineKeyboardButton.
Record t := mk {
  text : string;
  url : option string;
  callback_data : option string
}.
End InlineKeyboardButton.

(** [InlineKeyboardMarkup(buttons)]: rows of buttons. *)
Definition InlineKeyboardMarkup : Type := list (list InlineKeyboardButton.t).

(** ** The effect monad of a handler invocation *)

(** One entry per API call the handler makes, in the order the calls are
    awaited, and one for the entry into the protected action. *)
Inductive event :=
| EvGetChatMember (chat_id : chat_ref) (user_id : Z)
    (result : TelegramError + ChatMember.t)
| EvSendMessage (chat_id : Z) (text : string)
    (reply_markup : option InlineKeyboardMarkup)
| EvAnswer (q : CallbackQuery.t)
| EvReplyText (m : Message.t) (text : string)
| EvBusinessStart (update : Update.t) (context : Context.t).

(** The answers of the Telegram servers.  Every Bot API method either
    returns or raises a [TelegramError]. *)
Record World := mkWorld {
  on_get_chat_member : chat_ref -> Z -> TelegramError + ChatMember.t;
  on_send_message :
    Z -> string -> option InlineKeyboardMarkup -> TelegramError + unit;
  on_answer : CallbackQuery.t -> TelegramError + unit;
  on_reply_text : Message.t -> string -> TelegramError + unit
}.

Definition M (A : Type) : Type := World -> list event * (exn + A).

Definition ret {A} (a : A) : M A := fun _ => ([], inr a).

Definition raise {A} (e : exn) : M A := fun _ => ([], inl e).

Definition bind {A B} (m : M A) (f : A -> M B) : M B :=
  fun w =>
    match m w with
    | (t1, inr a) => let '(t2, r) := f a w in ((t1 ++ t2)%list, r)
    | (t1, inl e) => (t1, inl e)
    end.

(** [try: body  except TelegramError as e: handler e]: any other
    exception passes through. *)
Definition try_except_TelegramError {A}
    (body : M A) (handler : TelegramError -> M A) : M A :=
  fun w =>
    match body w with
    | (t1, inl (ETelegram e)) =>
        let '(t2, r) := handler e w in ((t1 ++ t2)%list, r)
    | other => other
    end.

(** A [TelegramError] raised by an API call is a Python exception. *)
Definition lift_result {A} (r : TelegramError + A) : exn + A :=
  match r with
  | inl e => inl (ETelegram e)
  | inr a => inr a
  end.

(** An awaited API call: logged, then answered by the world. *)
Definition api {A} (ev : event) (answer : World -> TelegramError + A) : M A :=
  fun w => ([ev], lift_result (answer w)).

(** A trace entry that is no API call. *)
Definition log (ev : event) : M unit := fun _ => ([ev], inr tt).

(** [o.attr] where [o] may be [None]. *)
Definition getattr {A B} (o : option A) (name : string) (f : A -> B) : M B :=
  match o with
  | Some a => ret (f a)
  | None =>
      raise (EAttribute
               ("'NoneType' object has no attribute '" +:+ name +:+ "'"))
  end.

Declare Scope py_scope.
Delimit Scope py_scope with py.
Notation "x <- m ;; k" := (bind m (fun x => k))
  (at level 100, m at next level, right associativity) : py_scope.
Notation "m ;;; k" := (bind m (fun _ => k))
  (at level 100, right associativity) : py_scope.
Notation "'try' b 'except' e => h" := (try_except_TelegramError b (fun e => h))
  (at level 100, b at level 200, e name, h at level 200) : py_scope.
Open Scope py_scope.

Definition trace {A} (m : M A) (w : World) : list event := fst (m w).
Definition outcome {A} (m : M A) (w : World) : exn + A := snd (m w).

(** ** Bot API methods *)

Definition get_chat_member (bot : Bot.t) (chat_id : chat_ref) (user_id : Z)
  : M ChatMember.t :=
  fun w =>
    let result := on_get_chat_member w chat_id user_id in
    api (EvGetChatMember chat_id user_id result) (fun _ => result) w.

Definition send_message (bot : Bot.t) (chat_id : Z) (text : string)
    (reply_markup : option InlineKeyboardMarkup) : M unit :=
  api (EvSendMessage chat_id text reply_markup)
      (fun w => on_send_message w chat_id text reply_markup).

(** [q.answer()] *)
Definition answer (q : CallbackQuery.t) : M unit :=
  api (EvAnswer q) (fun w => on_answer w q).

(** [message.reply_text(text)] *)
Definition reply_text (m : Message.t) (text : string) : M unit :=
  api (EvReplyText m text) (fun w => on_reply_text w m text).

(** ** The gate *)

Section Gate.

Variable cfg : Config.

Definition build_join_url : string :=
  if PyStr.truthy (JOIN_URL cfg) then JOIN_URL cfg
  else
    match REQUIRED_CHAT cfg with
    | ChatStr s =>
        if PyStr.startswith s "@" then "https://t.me/" +:+ PyStr.tail s
        else ""
    | ChatInt _ => ""
    end.

Definition check_membership (bot : Bot.t) (user_id : Z) : M bool :=
  member <- get_chat_member bot (REQUIRED_CHAT cfg) user_id ;;
  ret (is_joined (ChatMember.status member)).

Definition JOIN_BUTTON_TEXT : string := "✅ 去加入频道/群".
Definition RECHECK_BUTTON_TEXT : string := "🔄 我已加入，点我复查".

Definition PROMPT_TEXT : string :=
  "🚫 需要先加入指定频道/群才能使用本机器人。" +:+ PyStr.LF
    +:+ "加入后点击「我已加入，点我复查」。".

Definition send_join_prompt (chat_id : Z) (bot : Bot.t)
    (extra_text : string) : M unit :=
  if SILENT_FOR_NOT_JOINED cfg then ret tt
  else
    let join_url := build_join_url in
    let buttons : InlineKeyboardMarkup := [] in
    let buttons :=
      if PyStr.truthy join_url then
        (buttons ++ [[InlineKeyboardButton.mk JOIN_BUTTON_TEXT
                         (Some join_url) None]])%list
      else buttons in
    let buttons :=
      (buttons ++ [[InlineKeyboardButton.mk RECHECK_BUTTON_TEXT
                       None (Some BTN_RECHECK)]])%list in
    let text := PROMPT_TEXT in
    let text :=
      if PyStr.truthy extra_text
      then extra_text +:+ PyStr.LF +:+ PyStr.LF +:+ text
      else text in
    send_message bot chat_id text (Some buttons).

Definition BUSINESS_TEXT : string :=
  "✅ 校验通过：进入你的业务逻辑（示例占位）".

(** The protected action, a placeholder that replies to the command; its
    entry is logged with its arguments. *)
Definition business_start (update : Update.t) (context : Context.t)
  : M unit :=
  log (EvBusinessStart update context) ;;;
  m <- getattr (Update.message update) "reply_text" (fun m => m) ;;
  reply_text m BUSINESS_TEXT.

Definition lookup_failed_text (e : TelegramError) : string :=
  "⚠️ 无法校验入群状态（可能 REQUIRED_CHAT 配置错误，或 bot 未加入/无权限）。"
    +:+ PyStr.LF
    +:+ "REQUIRED_CHAT=" +:+ REQUIRED_CHAT_RAW cfg +:+ PyStr.LF
    +:+ "错误：" +:+ type_name e +:+ ": " +:+ message e.

Definition start_with_gate (update : Update.t) (context : Context.t)
  : M unit :=
  uid <- getattr (Update.effective_user update) "id" User.id ;;
  chat_id <- getattr (Update.effective_chat update) "id" Chat.id ;;
  gate <-
    (try
       (ok <- check_membership (Context.bot context) uid ;;
        ret (Some ok))
     except e =>
       (let extra := lookup_failed_text e in
        send_join_prompt chat_id (Context.bot context) extra ;;;
        ret None)) ;;
  match gate with
  | None => ret tt
  | Some ok =>
      if negb ok then send_join_prompt chat_id (Context.bot context) ""
      else business_start update context
  end.

Definition RECHECK_FAILED_PREFIX : string := "⚠️ 复查失败：".
Definition CONFIRM_TEXT : string :=
  "🎉 已确认你已加入！请发送 /start 继续。".

Definition on_recheck (update : Update.t) (context : Context.t) : M unit :=
  q <- getattr (Update.callback_query update) "answer" (fun q => q) ;;
  answer q ;;;
  let uid := User.id (CallbackQuery.from_user q) in
  let chat_id :=
    match CallbackQuery.message q with
    | Some m => Some (Chat.id (Message.chat m))
    | None => None
    end in
  match chat_id with
  | None => ret tt
  | Some chat_id =>
      if chat_id =? 0 then ret tt
      else
        gate <-
          (try
             (ok <- check_membership (Context.bot context) uid ;;
              ret (Some ok))
           except e =>
             ((if negb (SILENT_FOR_NOT_JOINED cfg) then
                 send_message (Context.bot context) chat_id
                   (RECHECK_FAILED_PREFIX +:+ type_name e +:+ ": "
                      +:+ message e) None
               else ret tt) ;;;
              ret None)) ;;
        match gate with
        | None => ret tt
        | Some ok =>
            if negb ok then
              send_join_prompt chat_id (Context.bot context) ""
            else if negb (SILENT_FOR_NOT_JOINED cfg) then
              send_message (Context.bot context) chat_id CONFIRM_TEXT None
            else ret tt
        end
  end.

Definition handle_any_text (update : Update.t) (context : Context.t)
  : M unit := ret tt.

End Gate.

(** ** Observations on a trace *)

Definition lookups (tr : list event) : list (TelegramError + ChatMember.t) :=
  omap (fun ev => match ev with
                  | EvGetChatMember _ _ r => Some r
                  | _ => None
                  end) tr.

Definition sent_messages (tr : list event)
  : list (Z * string * option InlineKeyboardMarkup) :=
  omap (fun ev => match ev with
                  | EvSendMessage c t k => Some (c, t, k)
                  | _ => None
                  end) tr.

Definition replies (tr : list event) : list (Message.t * string) :=
  omap (fun ev => match ev with
                  | EvReplyText m t => Some (m, t)
                  | _ => None
                  end) tr.

Definition business_calls (tr : list event) : list (Update.t * Context.t) :=
  omap (fun ev => match ev with
                  | EvBusinessStart u c => Some (u, c)
                  | _ => None
                  end) tr.

Definition acknowledgements (tr : list event) : list CallbackQuery.t :=
  omap (fun ev => match ev with
                  | EvAnswer q => Some q
                  | _ => None
                  end) tr.

(** The URLs of the link buttons and the tags of the callback buttons of
    a keyboard, row by row. *)
Definition url_buttons (k : InlineKeyboardMarkup) : list string :=
  omap InlineKeyboardButton.url (concat k).

Definition callback_buttons (k : InlineKeyboardMarkup) : list string :=
  omap InlineKeyboardButton.callback_data (concat k).

(** A lookup or an outbound chat message: what the acknowledgement of a
    callback query has to precede. *)
Definition is_lookup_or_message (ev : event) : bool :=
  match ev with
  | EvGetChatMember _ _ _ | EvSendMessage _ _ _ | EvReplyText _ _ => true
  | EvAnswer _ | EvBusinessStart _ _ => false
  end.

(** ** Definitions used by the statements *)

(** The keyboard and the text that [send_join_prompt] builds. *)
Definition prompt_buttons (cfg : Config) : InlineKeyboardMarkup :=
  ((if PyStr.truthy (build_join_url cfg)
    then [[InlineKeyboardButton.mk JOIN_BUTTON_TEXT
             (Some (build_join_url cfg)) None]]
    else []) ++
   [[InlineKeyboardButton.mk RECHECK_BUTTON_TEXT None (Some BTN_RECHECK)]])%list.

Definition prompt_text (extra_text : string) : string :=
  if PyStr.truthy extra_text
  then extra_text +:+ PyStr.LF +:+ PyStr.LF +:+ PROMPT_TEXT
  else PROMPT_TEXT.

(** What [on_recheck] does after the acknowledgement and the lookup. *)
Definition recheck_reply (cfg : Config) (context : Context.t) (chat_id : Z)
    (r : TelegramError + ChatMember.t) (w : World)
  : list event * (exn + unit) :=
  match r with
  | inl e =>
      if SILENT_FOR_NOT_JOINED cfg then ([], inr tt)
      else
        let text :=
          RECHECK_FAILED_PREFIX +:+ type_name e +:+ ": " +:+ message e in
        ([EvSendMessage chat_id text None],
         lift_result (on_send_message w chat_id text None))
  | inr m =>
      if is_joined (ChatMember.status m) then
        if SILENT_FOR_NOT_JOINED cfg then ([], inr tt)
        else ([EvSendMessage chat_id CONFIRM_TEXT None],
              lift_result (on_send_message w chat_id CONFIRM_TEXT None))
      else send_join_prompt cfg chat_id (Context.bot context) "" w
  end.

(** The variable [key] is unset, or set to white space only. *)
Definition missing_or_blank (environ : gmap string string) (key : string)
  : Prop :=
  match environ !! key with
  | None => True
  | Some v => PyStr.strip v = ""
  end.

(** [p] is a message sent by the gate, by the recheck handler or by the
    prompt emitter itself. *)
Definition is_prompt_of (cfg : Config) (w : World)
    (p : Z * string * option InlineKeyboardMarkup) : Prop :=
  (exists update ctx,
      In p (sent_messages (trace (start_with_gate cfg update ctx) w)))
  \/ (exists update ctx,
         In p (sent_messages (trace (on_recheck cfg update ctx) w)))
  \/ (exists chat_id bot extra,
         In p (sent_messages
                 (trace (send_join_prompt cfg chat_id bot extra) w))).

(** [p] is a join prompt that was sent: any message of the prompt
    emitter, any message of the gate, or a message of a recheck whose
    lookup returned a status that is not joined. *)
Definition prompt_sent (cfg : Config) (w : World)
    (p : Z * string * option InlineKeyboardMarkup) : Prop :=
  (exists chat_id bot extra,
      In p (sent_messages (trace (send_join_prompt cfg chat_id bot extra) w)))
  \/ (exists update ctx,
         In p (sent_messages (trace (start_with_gate cfg update ctx) w)))
  \/ (exists update ctx m,
         In (inr m) (lookups (trace (on_recheck cfg update ctx) w))
         /\ is_joined (ChatMember.status m) = false
         /\ In p (sent_messages (trace (on_recheck cfg update ctx) w))).

(** No white space character of [PyStr.whitespace] starts or ends [s]. *)
Definition no_outer_whitespace (s : string) : Prop :=
  forall w, In w PyStr.whitespace ->
    PyStr.drop_prefix w s = None
    /\ PyStr.drop_prefix (String.rev w) (String.rev s) = None.

(** ** Fixtures: one configuration, one user, one world per outcome *)

Module Fixture.

Definition cfg_handle : Config :=
  mkConfig "123:abc" "@mychannel" "" false (ChatStr "@mychannel").

Definition cfg_silent : Config :=
  mkConfig "123:abc" "-1001234567890" "" true (ChatInt (-1001234567890)).

Definition alice : User.t := User.mk 7.
Definition room : Chat.t := Chat.mk 42.
Definition the_bot : Bot.t := Bot.mk "123:abc".
Definition ctx : Context.t := Context.mk the_bot.

Definition start_update : Update.t :=
  Update.mk (Some alice) (Some room) (Some (Message.mk 1 room)) None.

Definition recheck_query : CallbackQuery.t :=
  CallbackQuery.mk "q1" alice (Some (Message.mk 2 room)) BTN_RECHECK.

Definition recheck_update : Update.t :=
  Update.mk (Some alice) (Some room) None (Some recheck_query).

(** A world whose lookup always answers [r] and that accepts every
    other call. *)
Definition world_with (r : TelegramError + ChatMember.t) : World :=
  mkWorld (fun _ _ => r) (fun _ _ _ => inr tt) (fun _ => inr tt)
    (fun _ _ => inr tt).

Definition forbidden : TelegramError :=
  mkTelegramError "Forbidden" "bot is not a member of the channel chat".

Definition as_member : World :=
  world_with (inr (ChatMember.mk ChatMemberStatus.MEMBER)).
Definition as_left : World :=
  world_with (inr (ChatMember.mk ChatMemberStatus.LEFT)).
Definition as_forbidden : World := world_with (inl forbidden).

(** The bot may neither look members up nor write to the chat. *)
Definition all_forbidden : World :=
  mkWorld (fun _ _ => inl forbidden) (fun _ _ _ => inl forbidden)
    (fun _ => inr tt) (fun _ _ => inr tt).

End Fixture.

(** ** Further observations *)

(** The arguments of the lookups of a trace. *)
Definition lookup_requests (tr : list event) : list (chat_ref * Z) :=
  omap (fun ev => match ev with
                  | EvGetChatMember c u _ => Some (c, u)
                  | _ => None
                  end) tr.

(** The world [w] with every lookup answered by [r]. *)
Definition with_lookup (w : World) (r : TelegramError + ChatMember.t)
  : World :=
  mkWorld (fun _ _ => r) (on_send_message w) (on_answer w) (on_reply_text w).

(** The servers accept every chat message. *)
Definition accepts_messages (w : World) : Prop :=
  (forall chat_id text k, on_send_message w chat_id text k = inr tt)
  /\ (forall m text, on_reply_text w m text = inr tt).

(** A world that refuses to acknowledge callback queries, as the servers
    do for a query that is too old. *)
Definition query_too_old : TelegramError :=
  mkTelegramError "BadRequest" "Query is too old".

Definition ack_refused : World :=
  mkWorld (fun _ _ => inr (ChatMember.mk ChatMemberStatus.MEMBER))
    (fun _ _ _ => inr tt) (fun _ => inl query_too_old) (fun _ _ => inr tt).

(** A private chat given by its number, no [JOIN_URL], prompts on. *)
Definition cfg_numeric : Config :=
  mkConfig "123:abc" "-1001234567890" "" false (ChatInt (-1001234567890)).

(** [s] neither starts nor ends with a white space character. *)
Definition no_outer_space (s : string) : Prop :=
  (forall a t, s = String a t -> PyStr.isspace a = false)
  /\ (forall t a, s = t +:+ String a "" -> PyStr.isspace a = false).

(** ** Runs, case by case *)

Lemma send_join_prompt_run cfg chat_id bot extra w :
  send_join_prompt cfg chat_id bot extra w =
    if SILENT_FOR_NOT_JOINED cfg then ([], inr tt)
    else ([EvSendMessage chat_id (prompt_text extra)
             (Some (prompt_buttons cfg))],
          lift_result (on_send_message w chat_id (prompt_text extra)
                         (Some (prompt_buttons cfg)))).
Proof.
  unfold send_join_prompt, prompt_buttons, prompt_text.
  destruct (SILENT_FOR_NOT_JOINED cfg); [reflexivity|].
  destruct (PyStr.truthy (build_join_url cfg)), (PyStr.truthy extra);
    reflexivity.
Qed.

Lemma business_start_run update context w :
  business_start update context w =
    match Update.message update with
    | Some m =>
        ([EvBusinessStart update context; EvReplyText m (BUSINESS_TEXT)],
         lift_result (on_reply_text w m BUSINESS_TEXT))
    | None =>
        ([EvBusinessStart update context],
         inl (EAttribute "'NoneType' object has no attribute 'reply_text'"))
    end.
Proof.
  unfold business_start, bind, log, getattr.
  destruct (Update.message update); reflexivity.
Qed.

(** The gate, once the update carries a user and a chat: one lookup,
    then exactly one of the three continuations. *)
Lemma start_with_gate_run cfg update context w u c :
  Update.effective_user update = Some u ->
  Update.effective_chat update = Some c ->
  let r := on_get_chat_member w (REQUIRED_CHAT cfg) (User.id u) in
  let ev := EvGetChatMember (REQUIRED_CHAT cfg) (User.id u) r in
  let k :=
    match r with
    | inl e =>
        send_join_prompt cfg (Chat.id c) (Context.bot context)
          (lookup_failed_text cfg e) w
    | inr m =>
        if is_joined (ChatMember.status m)
        then business_start update context w
        else send_join_prompt cfg (Chat.id c) (Context.bot context) "" w
    end in
  start_with_gate cfg update context w = (ev :: fst k, snd k).
Proof.
  intros Hu Hc. cbv zeta.
  unfold start_with_gate, bind, try_except_TelegramError, check_membership,
    bind, get_chat_member, api, getattr, ret.
  rewrite Hu, Hc. simpl.
  destruct (on_get_chat_member w (REQUIRED_CHAT cfg) (User.id u)) as [e|m];
    simpl.
  - destruct (send_join_prompt cfg (Chat.id c) (Context.bot context)
                (lookup_failed_text cfg e) w) as [t [x|[]]];
      simpl; rewrite ?app_nil_r; reflexivity.
  - destruct (is_joined (ChatMember.status m)); simpl.
    + destruct (business_start update context w);
        simpl; rewrite ?app_nil_r; reflexivity.
    + destruct (send_join_prompt cfg (Chat.id c) (Context.bot context) "" w);
        simpl; rewrite ?app_nil_r; reflexivity.
Qed.

Lemma start_with_gate_no_user cfg update context w :
  Update.effective_user update = None \/ Update.effective_chat update = None ->
  trace (start_with_gate cfg update context) w = [].
Proof.
  unfold trace, start_with_gate, bind, getattr, raise, ret.
  destruct (Update.effective_user update), (Update.effective_chat update);
    intros [H|H]; try discriminate; reflexivity.
Qed.

Lemma on_recheck_run cfg update context w q :
  Update.callback_query update = Some q ->
  on_recheck cfg update context w =
    match on_answer w q with
    | inl e => ([EvAnswer q], inl (ETelegram e))
    | inr _ =>
        match CallbackQuery.message q with
        | None => ([EvAnswer q], inr tt)
        | Some m =>
            let chat_id := Chat.id (Message.chat m) in
            if chat_id =? 0 then ([EvAnswer q], inr tt)
            else
              let uid := User.id (CallbackQuery.from_user q) in
              let r := on_get_chat_member w (REQUIRED_CHAT cfg) uid in
              let k := recheck_reply cfg context chat_id r w in
              (EvAnswer q :: EvGetChatMember (REQUIRED_CHAT cfg) uid r :: fst k,
               snd k)
        end
    end.
Proof.
  intros Hq.
  unfold on_recheck, bind, try_except_TelegramError, check_membership,
    bind, get_chat_member, answer, send_message, api, getattr, ret.
  rewrite Hq. simpl.
  destruct (on_answer w q) as [e|[]]; simpl; [reflexivity|].
  destruct (CallbackQuery.message q) as [m|]; simpl; [|reflexivity].
  destruct (Chat.id (Message.chat m) =? 0); simpl; [reflexivity|].
  unfold recheck_reply.
  destruct (on_get_chat_member w (REQUIRED_CHAT cfg)
              (User.id (CallbackQuery.from_user q))) as [e|mb]; simpl.
  - destruct (SILENT_FOR_NOT_JOINED cfg); simpl; [reflexivity|].
    destruct (on_send_message w _ _ None) as [e'|[]]; reflexivity.
  - destruct (is_joined (ChatMember.status mb)); simpl.
    + destruct (SILENT_FOR_NOT_JOINED cfg); simpl; [reflexivity|].
      destruct (on_send_message w _ _ None) as [e'|[]]; reflexivity.
    + destruct (send_join_prompt cfg _ (Context.bot context) "" w)
        as [t [x|[]]]; simpl; rewrite ?app_nil_r; reflexivity.
Qed.

Lemma on_recheck_no_query cfg update context w :
  Update.callback_query update = None ->
  trace (on_recheck cfg update context) w = [].
Proof.
  intros Hq. unfold trace, on_recheck, bind, getattr, raise.
  rewrite Hq. reflexivity.
Qed.


(** ** Worked runs *)

(** A public channel, no [JOIN_URL], a user who has left: one lookup,
    then the prompt with both buttons. *)
Example run_gate_user_left :
  start_with_gate Fixture.cfg_handle Fixture.start_update Fixture.ctx
    Fixture.as_left
  = ([EvGetChatMember (ChatStr "@mychannel") 7
        (inr (ChatMember.mk "left"));
      EvSendMessage 42 PROMPT_TEXT
        (Some [[InlineKeyboardButton.mk JOIN_BUTTON_TEXT
                  (Some "https://t.me/mychannel") None];
               [InlineKeyboardButton.mk RECHECK_BUTTON_TEXT None
                  (Some "recheck_join")]])],
     inr tt).
Proof. reflexivity. Qed.

(** The same user once a member: the lookup, then the protected action
    and its reply. *)
Example run_gate_user_member :
  start_with_gate Fixture.cfg_handle Fixture.start_update Fixture.ctx
    Fixture.as_member
  = ([EvGetChatMember (ChatStr "@mychannel") 7
        (inr (ChatMember.mk "member"));
      EvBusinessStart Fixture.start_update Fixture.ctx;
      EvReplyText (Message.mk 1 Fixture.room) BUSINESS_TEXT],
     inr tt).
Proof. reflexivity. Qed.

(** A private chat given by its number, silent mode, a recheck by a
    member: the acknowledgement and the lookup, nothing else. *)
Example run_recheck_silent :
  on_recheck Fixture.cfg_silent Fixture.recheck_update Fixture.ctx
    Fixture.as_member
  = ([EvAnswer Fixture.recheck_query;
      EvGetChatMember (ChatInt (-1001234567890)) 7
        (inr (ChatMember.mk "member"))],
     inr tt).
Proof. reflexivity. Qed.

(** The two configurations of the fixtures are what the module body
    computes from such environments. *)
Example module_init_handle :
  module_init ascii_builtins
    {[ "BOT_TOKEN" := " 123:abc"; "REQUIRED_CHAT" := "@mychannel" ]}
  = inr Fixture.cfg_handle.
Proof. vm_compute. reflexivity. Qed.

Example module_init_silent :
  module_init ascii_builtins
    {[ "BOT_TOKEN" := "123:abc";
       "REQUIRED_CHAT" := "-1001234567890";
       "SILENT_FOR_NOT_JOINED" := "True" ]}
  = inr Fixture.cfg_silent.
Proof. vm_compute. reflexivity. Qed.

(** [int()] refuses a doubled sign that [lstrip("-").isdigit()] lets
    through. *)
Example module_init_double_sign :
  module_init ascii_builtins
    {[ "BOT_TOKEN" := "123:abc"; "REQUIRED_CHAT" := "--5" ]}
  = inl (EValue "invalid literal for int() with base 10: '--5'").
Proof. vm_compute. reflexivity. Qed.

(** White space outside ASCII is stripped too: a token made of an
    ideographic space (U+3000) and a no-break space (U+00A0) is blank,
    and the same two characters around a handle are removed. *)
Example module_init_unicode_blank :
  module_init ascii_builtins
    {[ "BOT_TOKEN" := PyStr.bytes [227; 128; 128; 194; 160]%nat;
       "REQUIRED_CHAT" := "@mychannel" ]}
  = inl (ERuntime "BOT_TOKEN 未设置：请在 .env 配置 BOT_TOKEN=xxx").
Proof. vm_compute. reflexivity. Qed.

Example module_init_unicode_trim :
  module_init ascii_builtins
    {[ "BOT_TOKEN" := "123:abc";
       "REQUIRED_CHAT" :=
         PyStr.bytes [227; 128; 128]%nat +:+ "@mychannel"
           +:+ PyStr.bytes [194; 160; 32]%nat ]}
  = inr Fixture.cfg_handle.
Proof. vm_compute. reflexivity. Qed.

Lemma ascii_isdigit_needs_digits : isdigit_needs_digits ascii_builtins.
Proof.
  intros c s _ Hc. cbn [Builtins.isdigit ascii_builtins].
  unfold AsciiDigits.isdigit. cbn [PyStr.truthy AsciiDigits.all_digits].
  rewrite Hc. reflexivity.
Qed.


(** A raw value that starts with [@] is kept as a string. *)
Lemma module_init_keeps_handle py environ cfg handle :
  isdigit_needs_digits py ->
  module_init py environ = inr cfg ->
  REQUIRED_CHAT_RAW cfg = "@" +:+ handle ->
  REQUIRED_CHAT cfg = ChatStr ("@" +:+ handle).
Proof.
  intros Hpy. unfold module_init.
  destruct (negb (PyStr.truthy (PyStr.strip (getenv environ "BOT_TOKEN" ""))));
    [discriminate|].
  destruct (negb (PyStr.truthy
                    (PyStr.strip (getenv environ "REQUIRED_CHAT" ""))));
    [discriminate|].
  destruct (Builtins.isdigit py
              (PyStr.lstrip_chars "-"
                 (PyStr.strip (getenv environ "REQUIRED_CHAT" "")))) eqn:Hd.
  - destruct (Builtins.int py
                (PyStr.strip (getenv environ "REQUIRED_CHAT" "")));
      [discriminate|].
    intros [= <-]. cbn [REQUIRED_CHAT_RAW]. intros Hraw.
    rewrite Hraw in Hd.
    change (PyStr.lstrip_chars "-" ("@" +:+ handle))
      with (String "@" handle) in Hd.
    rewrite (Hpy "@"%char handle) in Hd; [discriminate Hd| |reflexivity].
    vm_compute. lia.
  - intros [= <-]. cbn [REQUIRED_CHAT_RAW REQUIRED_CHAT].
    intros ->. reflexivity.
Qed.

(** ** The claims: membership statuses *)

(** C1. [is_joined] is true on the statuses member, administrator, owner
    and restricted, and false on left and kicked. *)
Theorem is_joined_on_known_statuses :
  Forall (fun st => is_joined (status_value st) = true)
    [member; administrator; owner; restricted]
  /\ Forall (fun st => is_joined (status_value st) = false) [left; kicked].
Proof.
  split; repeat constructor.
Qed.

Lemma is_joined_spec (status : string) :
  is_joined status = true <->
  status = ChatMemberStatus.MEMBER \/ status = ChatMemberStatus.ADMINISTRATOR
  \/ status = ChatMemberStatus.OWNER \/ status = ChatMemberStatus.RESTRICTED.
Proof.
  unfold is_joined, joined_statuses.
  rewrite bool_decide_eq_true, !elem_of_union, !elem_of_singleton. tauto.
Qed.

(** C10. [is_joined] is a total function on strings, and it answers
    false on every string that is none of the four joined statuses, an
    unknown status included. *)
Theorem is_joined_false_outside_set (status : string) :
  ~ In status [ChatMemberStatus.MEMBER; ChatMemberStatus.ADMINISTRATOR;
               ChatMemberStatus.OWNER; ChatMemberStatus.RESTRICTED] ->
  is_joined status = false.
Proof.
  intros Hout.
  destruct (is_joined status) eqn:E; [|reflexivity].
  exfalso. apply Hout. apply is_joined_spec in E. simpl.
  intuition congruence.
Qed.

Lemma is_joined_false_outside_set_witness :
  ~ In "unknown_future_status"
      [ChatMemberStatus.MEMBER; ChatMemberStatus.ADMINISTRATOR;
       ChatMemberStatus.OWNER; ChatMemberStatus.RESTRICTED]
  /\ is_joined "unknown_future_status" = false.
Proof.
  assert (H : ~ In "unknown_future_status"
                [ChatMemberStatus.MEMBER; ChatMemberStatus.ADMINISTRATOR;
                 ChatMemberStatus.OWNER; ChatMemberStatus.RESTRICTED]).
  { simpl. intros [H|[H|[H|[H|[]]]]]; discriminate H. }
  split; [exact H | exact (is_joined_false_outside_set _ H)].
Defined.


(** ** The claims: start-up *)

Lemma missing_or_blank_getenv environ key :
  missing_or_blank environ key ->
  PyStr.truthy (PyStr.strip (getenv environ key "")) = false.
Proof.
  unfold missing_or_blank, getenv.
  destruct (environ !! key) as [v|]; [intros ->|]; reflexivity.
Qed.

(** C9. When [BOT_TOKEN] or [REQUIRED_CHAT] is missing or blank, the
    module body raises [RuntimeError] and the process does not start. *)
Theorem startup_fails_without_required_config
    (py : Builtins.t) (environ : gmap string string) :
  missing_or_blank environ "BOT_TOKEN"
  \/ missing_or_blank environ "REQUIRED_CHAT" ->
  (exists msg, module_init py environ = inl (ERuntime msg))
  /\ process_starts py environ = false.
Proof.
  intros H.
  assert (E : exists msg, module_init py environ = inl (ERuntime msg)).
  { unfold module_init.
    destruct (PyStr.truthy (PyStr.strip (getenv environ "BOT_TOKEN" "")))
      eqn:Ht; simpl; [|eauto].
    destruct H as [H|H]; apply missing_or_blank_getenv in H.
    - congruence.
    - rewrite H. simpl. eauto. }
  split; [exact E|].
  destruct E as [msg E]. unfold process_starts. rewrite E. reflexivity.
Qed.

Lemma startup_fails_without_required_config_witness :
  (missing_or_blank
     {[ "BOT_TOKEN" := "123:abc";
        "REQUIRED_CHAT" := PyStr.bytes [32; 227; 128; 128; 194; 160]%nat ]}
     "BOT_TOKEN"
   \/ missing_or_blank
        {[ "BOT_TOKEN" := "123:abc";
           "REQUIRED_CHAT" := PyStr.bytes [32; 227; 128; 128; 194; 160]%nat ]}
        "REQUIRED_CHAT")
  /\ process_starts ascii_builtins
       {[ "BOT_TOKEN" := "123:abc";
          "REQUIRED_CHAT" := PyStr.bytes [32; 227; 128; 128; 194; 160]%nat ]}
     = false.
Proof.
  assert (H : missing_or_blank
                {[ "BOT_TOKEN" := "123:abc";
                   "REQUIRED_CHAT" :=
                     PyStr.bytes [32; 227; 128; 128; 194; 160]%nat ]}
                "BOT_TOKEN"
              \/ missing_or_blank
                   {[ "BOT_TOKEN" := "123:abc";
                      "REQUIRED_CHAT" :=
                        PyStr.bytes [32; 227; 128; 128; 194; 160]%nat ]}
                   "REQUIRED_CHAT").
  { right. vm_compute. reflexivity. }
  split; [exact H|].
  exact (proj2 (startup_fails_without_required_config ascii_builtins _ H)).
Defined.

(** ** The claims: the two handlers *)

(** Case analysis on a run of the gate: the update, then the lookup. *)
Ltac gate_cases cfg update ctx w :=
  let u := fresh "u" in
  let c := fresh "c" in
  let Hu := fresh "Hu" in
  let Hc := fresh "Hc" in
  let E := fresh "E" in
  unfold trace, outcome in *;
  destruct (Update.effective_user update) as [u|] eqn:Hu;
  [ destruct (Update.effective_chat update) as [c|] eqn:Hc;
    [ pose proof (start_with_gate_run cfg update ctx w u c Hu Hc) as E;
      cbv zeta in E; rewrite E in *; clear E;
      destruct (on_get_chat_member w (REQUIRED_CHAT cfg) (User.id u))
        as [?e|?mb] eqn:?Hlookup
    | pose proof (start_with_gate_no_user cfg update ctx w
                    (or_intror Hc)) as E;
      unfold trace in E; rewrite E in *; clear E ]
  | pose proof (start_with_gate_no_user cfg update ctx w
                  (or_introl Hu)) as E;
    unfold trace in E; rewrite E in * ; clear E];
  cbn [fst snd] in *.

(** C2. When the lookup of a gate evaluation returns a joined status,
    the protected action is entered exactly once, with the very update
    and context the gate was called with, and no prompt is sent. *)
Theorem gate_joined_invokes_business_once cfg update ctx w m :
  In (inr m) (lookups (trace (start_with_gate cfg update ctx) w)) ->
  is_joined (ChatMember.status m) = true ->
  business_calls (trace (start_with_gate cfg update ctx) w)
    = [(update, ctx)]
  /\ sent_messages (trace (start_with_gate cfg update ctx) w) = [].
Proof.
  intros Hin Hj.
  gate_cases cfg update ctx w.
  - rewrite send_join_prompt_run in *.
    destruct (SILENT_FOR_NOT_JOINED cfg); simpl in Hin;
      intuition discriminate.
  - destruct (is_joined (ChatMember.status mb)) eqn:Hmb.
    + rewrite business_start_run.
      destruct (Update.message update); split; reflexivity.
    + exfalso. rewrite send_join_prompt_run in Hin.
      destruct (SILENT_FOR_NOT_JOINED cfg); simpl in Hin;
        destruct Hin as [Hin|Hin]; try contradiction;
        injection Hin as ->; congruence.
  - contradiction.
  - contradiction.
Qed.

Lemma gate_joined_invokes_business_once_witness :
  In (inr (ChatMember.mk ChatMemberStatus.MEMBER))
    (lookups (trace (start_with_gate Fixture.cfg_handle Fixture.start_update
                       Fixture.ctx) Fixture.as_member))
  /\ is_joined ChatMemberStatus.MEMBER = true
  /\ business_calls
       (trace (start_with_gate Fixture.cfg_handle Fixture.start_update
                 Fixture.ctx) Fixture.as_member)
     = [(Fixture.start_update, Fixture.ctx)]
  /\ sent_messages
       (trace (start_with_gate Fixture.cfg_handle Fixture.start_update
                 Fixture.ctx) Fixture.as_member) = [].
Proof.
  assert (H1 : In (inr (ChatMember.mk ChatMemberStatus.MEMBER))
                 (lookups (trace (start_with_gate Fixture.cfg_handle
                                    Fixture.start_update Fixture.ctx)
                             Fixture.as_member))).
  { vm_compute. left. reflexivity. }
  assert (H2 : is_joined ChatMemberStatus.MEMBER = true) by reflexivity.
  split; [exact H1|]. split; [exact H2|].
  exact (gate_joined_invokes_business_once _ _ _ _ _ H1 H2).
Defined.

(** C3. When the lookup of a gate evaluation returns a status that is
    not joined and silent mode is off, exactly one message is sent, the
    standard prompt with the recheck button, and the protected action is
    not entered. *)
Theorem gate_not_joined_sends_one_prompt cfg update ctx w m :
  SILENT_FOR_NOT_JOINED cfg = false ->
  In (inr m) (lookups (trace (start_with_gate cfg update ctx) w)) ->
  is_joined (ChatMember.status m) = false ->
  (exists chat_id markup,
      sent_messages (trace (start_with_gate cfg update ctx) w)
        = [(chat_id, PROMPT_TEXT, Some markup)]
      /\ In BTN_RECHECK (callback_buttons markup))
  /\ business_calls (trace (start_with_gate cfg update ctx) w) = [].
Proof.
  intros Hs Hin Hj.
  gate_cases cfg update ctx w; try contradiction.
  - rewrite send_join_prompt_run, Hs in Hin. simpl in Hin.
    intuition discriminate.
  - assert (mb = m) as ->.
    { destruct (is_joined (ChatMember.status mb));
        [rewrite business_start_run in Hin; destruct (Update.message update)
        |rewrite send_join_prompt_run, Hs in Hin];
        simpl in Hin; destruct Hin as [Hin|Hin]; try contradiction;
        congruence. }
    rewrite Hj, send_join_prompt_run, Hs. cbn [fst snd].
    split; [|reflexivity].
    exists (Chat.id c), (prompt_buttons cfg). split; [reflexivity|].
    unfold prompt_buttons, callback_buttons.
    destruct (PyStr.truthy (build_join_url cfg)); simpl; auto.
Qed.

Lemma gate_not_joined_sends_one_prompt_witness :
  SILENT_FOR_NOT_JOINED Fixture.cfg_handle = false
  /\ In (inr (ChatMember.mk ChatMemberStatus.LEFT))
       (lookups (trace (start_with_gate Fixture.cfg_handle
                          Fixture.start_update Fixture.ctx) Fixture.as_left))
  /\ is_joined ChatMemberStatus.LEFT = false
  /\ (exists chat_id markup,
         sent_messages (trace (start_with_gate Fixture.cfg_handle
                                 Fixture.start_update Fixture.ctx)
                          Fixture.as_left)
           = [(chat_id, PROMPT_TEXT, Some markup)]
         /\ In BTN_RECHECK (callback_buttons markup))
  /\ business_calls (trace (start_with_gate Fixture.cfg_handle
                              Fixture.start_update Fixture.ctx)
                       Fixture.as_left) = [].
Proof.
  assert (H1 : SILENT_FOR_NOT_JOINED Fixture.cfg_handle = false)
    by reflexivity.
  assert (H2 : In (inr (ChatMember.mk ChatMemberStatus.LEFT))
                 (lookups (trace (start_with_gate Fixture.cfg_handle
                                    Fixture.start_update Fixture.ctx)
                             Fixture.as_left))).
  { vm_compute. left. reflexivity. }
  assert (H3 : is_joined ChatMemberStatus.LEFT = false) by reflexivity.
  split; [exact H1|]. split; [exact H2|]. split; [exact H3|].
  exact (gate_not_joined_sends_one_prompt _ _ _ _ _ H1 H2 H3).
Defined.

(** Case analysis on a run of the recheck handler: the callback query,
    its acknowledgement, the chat of its message, then the lookup. *)
Ltac recheck_cases cfg update ctx w :=
  let q := fresh "q" in
  let Hq := fresh "Hq" in
  let E := fresh "E" in
  unfold trace, outcome in *;
  destruct (Update.callback_query update) as [q|] eqn:Hq;
  [ pose proof (on_recheck_run cfg update ctx w q Hq) as E;
    cbv zeta in E; rewrite E in *; clear E;
    destruct (on_answer w q) as [?e|?ok] eqn:?Hack;
    [ | destruct (CallbackQuery.message q) as [?msg|] eqn:?Hmsg;
        [ destruct (Chat.id (Message.chat msg) =? 0) eqn:?Hzero;
          [ | unfold recheck_reply in *;
              destruct (on_get_chat_member w (REQUIRED_CHAT cfg)
                          (User.id (CallbackQuery.from_user q)))
                as [?e|?mb] eqn:?Hlookup ]
        | ] ]
  | pose proof (on_recheck_no_query cfg update ctx w Hq) as E;
    unfold trace in E; rewrite E in *; clear E ];
  cbn [fst snd] in *.

(** C4. In silent mode no chat message leaves the bot: not from a gate
    evaluation whose lookup did not return a joined status (a status
    that is not joined, or an error), where the protected action is not
    entered either, and not from any recheck, whatever its lookup
    returns. *)
Theorem silent_mode_sends_nothing cfg update ctx w :
  SILENT_FOR_NOT_JOINED cfg = true ->
  ((forall m, In (inr m) (lookups (trace (start_with_gate cfg update ctx) w))
              -> is_joined (ChatMember.status m) = false) ->
   sent_messages (trace (start_with_gate cfg update ctx) w) = []
   /\ replies (trace (start_with_gate cfg update ctx) w) = []
   /\ business_calls (trace (start_with_gate cfg update ctx) w) = [])
  /\ (sent_messages (trace (on_recheck cfg update ctx) w) = []
      /\ replies (trace (on_recheck cfg update ctx) w) = []
      /\ business_calls (trace (on_recheck cfg update ctx) w) = []).
Proof.
  intros Hs. split.
  - intros Hnot.
    gate_cases cfg update ctx w; try (repeat split; reflexivity).
    + rewrite send_join_prompt_run, Hs. repeat split; reflexivity.
    + rewrite (Hnot mb) by (simpl; left; reflexivity).
      rewrite send_join_prompt_run, Hs. repeat split; reflexivity.
  - recheck_cases cfg update ctx w; try (repeat split; reflexivity).
    + rewrite Hs. repeat split; reflexivity.
    + rewrite send_join_prompt_run, Hs.
      destruct (is_joined (ChatMember.status mb)); repeat split; reflexivity.
Qed.

Lemma silent_mode_sends_nothing_witness :
  SILENT_FOR_NOT_JOINED Fixture.cfg_silent = true
  /\ sent_messages (trace (start_with_gate Fixture.cfg_silent
                             Fixture.start_update Fixture.ctx)
                      Fixture.as_forbidden) = []
  /\ sent_messages (trace (on_recheck Fixture.cfg_silent
                             Fixture.recheck_update Fixture.ctx)
                      Fixture.as_member) = [].
Proof.
  assert (H : SILENT_FOR_NOT_JOINED Fixture.cfg_silent = true)
    by reflexivity.
  split; [exact H|]. split.
  - apply (proj1 (silent_mode_sends_nothing Fixture.cfg_silent
                    Fixture.start_update Fixture.ctx Fixture.as_forbidden H)).
    intros m Hin. vm_compute in Hin. destruct Hin as [Hin|[]]. discriminate.
  - apply (proj2 (silent_mode_sends_nothing Fixture.cfg_silent
                    Fixture.recheck_update Fixture.ctx Fixture.as_member H)).
Defined.

Lemma contains_intro (pre sub post : string) :
  PyStr.contains sub (pre +:+ sub +:+ post).
Proof. exists pre, post. reflexivity. Qed.

Lemma append_assoc (a b c : string) : (a +:+ b) +:+ c = a +:+ (b +:+ c).
Proof.
  induction a as [|x a IH]; [reflexivity|].
  change (String x ((a +:+ b) +:+ c) = String x (a +:+ (b +:+ c))).
  now rewrite IH.
Qed.

(** C5, amended. When the lookup of a gate evaluation raises, the
    handler catches the error and does not enter the protected action.
    In silent mode it sends nothing and returns.  Otherwise it sends one
    prompt whose text is the diagnostic, holding the raw [REQUIRED_CHAT]
    value and the type name and message of the error, then a blank line,
    then the standard prompt text; the handler ends the way that send
    ends, so it returns when the send is accepted. *)
Theorem gate_lookup_error_is_reported cfg update ctx w e :
  In (inl e) (lookups (trace (start_with_gate cfg update ctx) w)) ->
  business_calls (trace (start_with_gate cfg update ctx) w) = []
  /\ (SILENT_FOR_NOT_JOINED cfg = true ->
      sent_messages (trace (start_with_gate cfg update ctx) w) = []
      /\ outcome (start_with_gate cfg update ctx) w = inr tt)
  /\ (SILENT_FOR_NOT_JOINED cfg = false ->
      exists chat_id text markup,
        sent_messages (trace (start_with_gate cfg update ctx) w)
          = [(chat_id, text, Some markup)]
        /\ text = lookup_failed_text cfg e +:+ PyStr.LF +:+ PyStr.LF
                    +:+ PROMPT_TEXT
        /\ PyStr.contains (REQUIRED_CHAT_RAW cfg) text
        /\ PyStr.contains (type_name e) text
        /\ PyStr.contains (message e) text
        /\ In BTN_RECHECK (callback_buttons markup)
        /\ outcome (start_with_gate cfg update ctx) w
           = lift_result (on_send_message w chat_id text (Some markup))).
Proof.
  intros Hin.
  gate_cases cfg update ctx w; try contradiction.
  - assert (e0 = e) as ->.
    { rewrite send_join_prompt_run in Hin.
      destruct (SILENT_FOR_NOT_JOINED cfg); simpl in Hin;
        destruct Hin as [Hin|Hin]; try contradiction; congruence. }
    rewrite send_join_prompt_run.
    split; [destruct (SILENT_FOR_NOT_JOINED cfg); reflexivity|].
    split; intros Hs; rewrite Hs; cbn [fst snd].
    + split; reflexivity.
    + exists (Chat.id c), (prompt_text (lookup_failed_text cfg e)),
        (prompt_buttons cfg).
      assert (Ht : prompt_text (lookup_failed_text cfg e)
                   = lookup_failed_text cfg e +:+ PyStr.LF +:+ PyStr.LF
                       +:+ PROMPT_TEXT) by reflexivity.
      split; [reflexivity|]. split; [exact Ht|].
      rewrite Ht. unfold lookup_failed_text.
      repeat split.
      * rewrite !append_assoc. rewrite <- 2 append_assoc.
        apply contains_intro.
      * rewrite !append_assoc. rewrite <- 5 append_assoc.
        apply contains_intro.
      * rewrite !append_assoc. rewrite <- 7 append_assoc.
        apply contains_intro.
      * unfold prompt_buttons, callback_buttons.
        destruct (PyStr.truthy (build_join_url cfg)); simpl; auto.
  - exfalso.
    destruct (is_joined (ChatMember.status mb));
      [rewrite business_start_run in Hin; destruct (Update.message update)
      |rewrite send_join_prompt_run in Hin;
       destruct (SILENT_FOR_NOT_JOINED cfg)];
      simpl in Hin; intuition discriminate.
Qed.

Lemma gate_lookup_error_is_reported_witness :
  In (inl Fixture.forbidden)
    (lookups (trace (start_with_gate Fixture.cfg_handle Fixture.start_update
                       Fixture.ctx) Fixture.as_forbidden))
  /\ business_calls
       (trace (start_with_gate Fixture.cfg_handle Fixture.start_update
                 Fixture.ctx) Fixture.as_forbidden) = [].
Proof.
  assert (H : In (inl Fixture.forbidden)
                (lookups (trace (start_with_gate Fixture.cfg_handle
                                   Fixture.start_update Fixture.ctx)
                            Fixture.as_forbidden))).
  { vm_compute. left. reflexivity. }
  split; [exact H|].
  exact (proj1 (gate_lookup_error_is_reported _ _ _ _ _ H)).
Defined.


(** C5 as stated fails where the send of the diagnostic prompt is
    refused too: the lookup raises, the handler sends the prompt from
    its [except] block, and the error of that send leaves the handler. *)
Lemma gate_lookup_error_then_send_error_raises :
  In (inl Fixture.forbidden)
    (lookups (trace (start_with_gate Fixture.cfg_handle Fixture.start_update
                       Fixture.ctx) Fixture.all_forbidden))
  /\ SILENT_FOR_NOT_JOINED Fixture.cfg_handle = false
  /\ outcome (start_with_gate Fixture.cfg_handle Fixture.start_update
                Fixture.ctx) Fixture.all_forbidden
     = inl (ETelegram Fixture.forbidden).
Proof.
  split; [vm_compute; left; reflexivity|].
  split; reflexivity.
Qed.

(** Closes a goal from a membership [H] in a concrete list that no
    element of the list can satisfy, or that forces the goal. *)
Ltac in_cases H :=
  simpl in H;
  repeat match type of H with
         | _ \/ _ => destruct H as [H|H]
         | False => contradiction
         end;
  try congruence.

(** Every keyboard sent with a message is the keyboard of the join
    prompt. *)
Lemma prompt_keyboard cfg w chat_id text markup :
  is_prompt_of cfg w (chat_id, text, Some markup) ->
  markup = prompt_buttons cfg.
Proof.
  intros [(update & ctx & Hin)|[(update & ctx & Hin)|(c & bot & extra & Hin)]].
  - gate_cases cfg update ctx w; try contradiction.
    + rewrite send_join_prompt_run in Hin.
      destruct (SILENT_FOR_NOT_JOINED cfg); in_cases Hin.
    + destruct (is_joined (ChatMember.status mb));
        [rewrite business_start_run in Hin; destruct (Update.message update)
        |rewrite send_join_prompt_run in Hin;
         destruct (SILENT_FOR_NOT_JOINED cfg)];
        in_cases Hin.
  - recheck_cases cfg update ctx w; try solve [in_cases Hin].
    + destruct (SILENT_FOR_NOT_JOINED cfg); in_cases Hin.
    + rewrite send_join_prompt_run in Hin.
      destruct (is_joined (ChatMember.status mb)),
        (SILENT_FOR_NOT_JOINED cfg); in_cases Hin.
  - unfold trace in Hin. rewrite send_join_prompt_run in Hin.
    destruct (SILENT_FOR_NOT_JOINED cfg); in_cases Hin.
Qed.

Lemma truthy_false (s : string) : PyStr.truthy s = false <-> s = "".
Proof. destruct s; simpl; split; congruence. Qed.

(** Every prompt that was sent carries the keyboard of the join
    prompt. *)
Lemma prompt_sent_keyboard cfg w chat_id text k :
  prompt_sent cfg w (chat_id, text, k) -> k = Some (prompt_buttons cfg).
Proof.
  intros [(c & bot & extra & Hin)
         |[(update & ctx & Hin)|(update & ctx & m & Hm & Hj & Hin)]].
  - unfold trace in Hin. rewrite send_join_prompt_run in Hin.
    destruct (SILENT_FOR_NOT_JOINED cfg); in_cases Hin.
  - gate_cases cfg update ctx w; try contradiction.
    + rewrite send_join_prompt_run in Hin.
      destruct (SILENT_FOR_NOT_JOINED cfg); in_cases Hin.
    + destruct (is_joined (ChatMember.status mb));
        [rewrite business_start_run in Hin; destruct (Update.message update)
        |rewrite send_join_prompt_run in Hin;
         destruct (SILENT_FOR_NOT_JOINED cfg)];
        in_cases Hin.
  - recheck_cases cfg update ctx w; try solve [in_cases Hin].
    + destruct (SILENT_FOR_NOT_JOINED cfg); in_cases Hm.
    + assert (mb = m) as ->.
      { rewrite send_join_prompt_run in Hm.
        destruct (is_joined (ChatMember.status mb)),
          (SILENT_FOR_NOT_JOINED cfg); in_cases Hm. }
      rewrite Hj, send_join_prompt_run in Hin.
      destruct (SILENT_FOR_NOT_JOINED cfg); in_cases Hin.
Qed.

(** C6. Every prompt carries a keyboard, the emitter sends one whenever
    silent mode is off, and on that keyboard the recheck button is
    always present while the join button is: the link [JOIN_URL] when
    [JOIN_URL] is set; else the link https://t.me/<handle> when
    [REQUIRED_CHAT] is the string @<handle>; else absent. *)
Theorem prompt_join_button cfg w :
  (SILENT_FOR_NOT_JOINED cfg = false ->
   forall chat_id bot extra,
   exists text markup,
     sent_messages (trace (send_join_prompt cfg chat_id bot extra) w)
     = [(chat_id, text, Some markup)])
  /\ forall chat_id text k,
      prompt_sent cfg w (chat_id, text, k) ->
      exists markup,
        k = Some markup
        /\ callback_buttons markup = [BTN_RECHECK]
        /\ (JOIN_URL cfg <> "" -> url_buttons markup = [JOIN_URL cfg])
        /\ (JOIN_URL cfg = "" ->
            forall handle, REQUIRED_CHAT cfg = ChatStr ("@" +:+ handle) ->
                           url_buttons markup = ["https://t.me/" +:+ handle])
        /\ (JOIN_URL cfg = "" ->
            (forall handle, REQUIRED_CHAT cfg <> ChatStr ("@" +:+ handle)) ->
            url_buttons markup = []).
Proof.
  split.
  - intros Hs chat_id bot extra. unfold trace.
    rewrite send_join_prompt_run, Hs. eexists _, _. reflexivity.
  - intros chat_id text k Hp. apply prompt_sent_keyboard in Hp. subst k.
    exists (prompt_buttons cfg). split; [reflexivity|].
    unfold prompt_buttons, build_join_url, callback_buttons, url_buttons.
    destruct (PyStr.truthy (JOIN_URL cfg)) eqn:Hj.
    + rewrite Hj. repeat split; try reflexivity;
        intros E; rewrite E in Hj; discriminate.
    + apply truthy_false in Hj. rewrite Hj.
      split; [|split; [|split]].
      * destruct (REQUIRED_CHAT cfg) as [n|s]; [reflexivity|].
        destruct (PyStr.startswith s "@"); reflexivity.
      * intros E. congruence.
      * intros _ handle ->. reflexivity.
      * intros _ Hno.
        destruct (REQUIRED_CHAT cfg) as [n|s]; [reflexivity|].
        destruct s as [|a s]; [reflexivity|].
        destruct (Ascii.eqb a "@") eqn:Ha.
        -- apply Ascii.eqb_eq in Ha. subst a. exfalso.
           exact (Hno s eq_refl).
        -- cbn [PyStr.startswith]. rewrite Ha. reflexivity.
Qed.

Lemma prompt_join_button_witness :
  (exists text markup,
      sent_messages (trace (send_join_prompt cfg_numeric 42 Fixture.the_bot "")
                       Fixture.as_left)
      = [(42, text, Some markup)])
  /\ prompt_sent cfg_numeric Fixture.as_left
       (42, PROMPT_TEXT, Some (prompt_buttons cfg_numeric))
  /\ exists markup,
      Some (prompt_buttons cfg_numeric) = Some markup
      /\ callback_buttons markup = [BTN_RECHECK]
      /\ url_buttons markup = [].
Proof.
  assert (H : prompt_sent cfg_numeric Fixture.as_left
                (42, PROMPT_TEXT, Some (prompt_buttons cfg_numeric))).
  { right. left. exists Fixture.start_update, Fixture.ctx.
    vm_compute. left. reflexivity. }
  split.
  - exact (proj1 (prompt_join_button cfg_numeric Fixture.as_left) eq_refl
             42 Fixture.the_bot "").
  - split; [exact H|].
    destruct (proj2 (prompt_join_button cfg_numeric Fixture.as_left) _ _ _ H)
      as (markup & Hk & Hr & _ & _ & Hnone).
    exists markup. split; [exact Hk|]. split; [exact Hr|].
    apply Hnone; [reflexivity | discriminate].
Defined.

(** C7. The recheck handler never enters the protected action.  When
    its lookup returns a joined status and silent mode is off, it sends
    exactly one message, the confirmation that asks the user to send
    /start again. *)
Theorem recheck_joined_confirms_only cfg update ctx w :
  business_calls (trace (on_recheck cfg update ctx) w) = []
  /\ forall m,
      SILENT_FOR_NOT_JOINED cfg = false ->
      In (inr m) (lookups (trace (on_recheck cfg update ctx) w)) ->
      is_joined (ChatMember.status m) = true ->
      exists chat_id,
        sent_messages (trace (on_recheck cfg update ctx) w)
          = [(chat_id, CONFIRM_TEXT, None)]
        /\ PyStr.contains "/start" CONFIRM_TEXT.
Proof.
  split.
  - recheck_cases cfg update ctx w; try reflexivity.
    + destruct (SILENT_FOR_NOT_JOINED cfg); reflexivity.
    + rewrite send_join_prompt_run.
      destruct (is_joined (ChatMember.status mb)),
        (SILENT_FOR_NOT_JOINED cfg); reflexivity.
  - intros m Hs Hin Hj.
    recheck_cases cfg update ctx w; try solve [in_cases Hin].
    + rewrite Hs in Hin. in_cases Hin.
    + assert (mb = m) as ->.
      { rewrite send_join_prompt_run, Hs in Hin.
        destruct (is_joined (ChatMember.status mb)); in_cases Hin. }
      rewrite Hj, Hs. cbn [fst snd].
      exists (Chat.id (Message.chat msg)). split; [reflexivity|].
      exists "🎉 已确认你已加入！请发送 ", " 继续。". reflexivity.
Qed.

Lemma recheck_joined_confirms_only_witness :
  SILENT_FOR_NOT_JOINED Fixture.cfg_handle = false
  /\ In (inr (ChatMember.mk ChatMemberStatus.MEMBER))
       (lookups (trace (on_recheck Fixture.cfg_handle Fixture.recheck_update
                          Fixture.ctx) Fixture.as_member))
  /\ is_joined ChatMemberStatus.MEMBER = true
  /\ exists chat_id,
      sent_messages (trace (on_recheck Fixture.cfg_handle
                              Fixture.recheck_update Fixture.ctx)
                       Fixture.as_member)
        = [(chat_id, CONFIRM_TEXT, None)]
      /\ PyStr.contains "/start" CONFIRM_TEXT.
Proof.
  assert (H1 : SILENT_FOR_NOT_JOINED Fixture.cfg_handle = false)
    by reflexivity.
  assert (H2 : In (inr (ChatMember.mk ChatMemberStatus.MEMBER))
                 (lookups (trace (on_recheck Fixture.cfg_handle
                                    Fixture.recheck_update Fixture.ctx)
                             Fixture.as_member))).
  { vm_compute. left. reflexivity. }
  assert (H3 : is_joined ChatMemberStatus.MEMBER = true) by reflexivity.
  split; [exact H1|]. split; [exact H2|]. split; [exact H3|].
  exact (proj2 (recheck_joined_confirms_only Fixture.cfg_handle
                  Fixture.recheck_update Fixture.ctx Fixture.as_member)
           _ H1 H2 H3).
Defined.

(** C8. A recheck starts with the acknowledgement of the callback
    query: it is the first call of the handler and the only
    acknowledgement, nothing follows it when it fails, and so every
    lookup and every chat message of the run comes after it. *)
Theorem recheck_acknowledges_first cfg update ctx w q :
  Update.callback_query update = Some q ->
  exists rest,
    trace (on_recheck cfg update ctx) w = EvAnswer q :: rest
    /\ acknowledgements rest = []
    /\ (forall e, on_answer w q = inl e -> rest = [])
    /\ forall pre ev post,
        trace (on_recheck cfg update ctx) w = (pre ++ ev :: post)%list ->
        is_lookup_or_message ev = true ->
        In (EvAnswer q) pre.
Proof.
  intros Hq.
  assert (Hshape : exists rest,
             trace (on_recheck cfg update ctx) w = EvAnswer q :: rest
             /\ acknowledgements rest = []
             /\ (forall e, on_answer w q = inl e -> rest = [])).
  { unfold trace. rewrite (on_recheck_run cfg update ctx w q Hq).
    destruct (on_answer w q) as [e|ok] eqn:Hack.
    - exists []. repeat split; reflexivity.
    - destruct (CallbackQuery.message q) as [msg|].
      + cbv zeta. destruct (Chat.id (Message.chat msg) =? 0).
        * exists []. repeat split; reflexivity.
        * eexists. cbn [fst]. split; [reflexivity|].
          split; [|discriminate].
          unfold recheck_reply. rewrite send_join_prompt_run.
          destruct (on_get_chat_member w (REQUIRED_CHAT cfg)
                      (User.id (CallbackQuery.from_user q))) as [e|mb];
            [|destruct (is_joined (ChatMember.status mb))];
            destruct (SILENT_FOR_NOT_JOINED cfg); reflexivity.
      + exists []. repeat split; reflexivity. }
  destruct Hshape as (rest & Htr & Hack & Hfail).
  exists rest. repeat split; try assumption.
  intros pre ev post Hsplit Hev. rewrite Htr in Hsplit.
  destruct pre as [|ev0 pre]; simpl in Hsplit.
  - injection Hsplit as <- _. discriminate Hev.
  - injection Hsplit as <- _. left. reflexivity.
Qed.

Lemma recheck_acknowledges_first_witness :
  Update.callback_query Fixture.recheck_update = Some Fixture.recheck_query
  /\ exists rest,
      trace (on_recheck Fixture.cfg_handle Fixture.recheck_update
               Fixture.ctx) Fixture.as_left
        = EvAnswer Fixture.recheck_query :: rest
      /\ acknowledgements rest = [].
Proof.
  split; [reflexivity|].
  destruct (recheck_acknowledges_first Fixture.cfg_handle
              Fixture.recheck_update Fixture.ctx Fixture.as_left
              Fixture.recheck_query eq_refl) as (rest & H1 & H2 & _).
  exists rest. split; [exact H1 | exact H2].
Defined.

(** ** Further properties of the gate *)

(** X1. A gate evaluation on an update that carries a user and a chat
    starts with a lookup and makes no other one: it asks for the sender
    of the command in [REQUIRED_CHAT]. *)
Theorem gate_looks_up_sender_once cfg update ctx w u c :
  Update.effective_user update = Some u ->
  Update.effective_chat update = Some c ->
  lookup_requests (trace (start_with_gate cfg update ctx) w)
    = [(REQUIRED_CHAT cfg, User.id u)]
  /\ exists r rest,
      trace (start_with_gate cfg update ctx) w
        = EvGetChatMember (REQUIRED_CHAT cfg) (User.id u) r :: rest.
Proof.
  intros Hu Hc. unfold trace.
  pose proof (start_with_gate_run cfg update ctx w u c Hu Hc) as E.
  cbv zeta in E. rewrite E. cbn [fst]. split; [|eauto].
  destruct (on_get_chat_member w (REQUIRED_CHAT cfg) (User.id u)) as [e|m];
    [|destruct (is_joined (ChatMember.status m))];
    rewrite ?send_join_prompt_run, ?business_start_run;
    destruct (SILENT_FOR_NOT_JOINED cfg), (Update.message update);
    reflexivity.
Qed.

Lemma gate_looks_up_sender_once_witness :
  lookup_requests (trace (start_with_gate Fixture.cfg_handle
                            Fixture.start_update Fixture.ctx)
                     Fixture.as_left)
  = [(ChatStr "@mychannel", 7)].
Proof.
  exact (proj1 (gate_looks_up_sender_once Fixture.cfg_handle
                  Fixture.start_update Fixture.ctx Fixture.as_left
                  Fixture.alice Fixture.room eq_refl eq_refl)).
Defined.

(** X2. On an update without a user or without a chat the gate raises
    [AttributeError] before any call to the Bot API. *)
Theorem gate_without_user_or_chat_raises cfg update ctx w :
  Update.effective_user update = None
  \/ Update.effective_chat update = None ->
  trace (start_with_gate cfg update ctx) w = []
  /\ outcome (start_with_gate cfg update ctx) w
     = inl (EAttribute "'NoneType' object has no attribute 'id'").
Proof.
  unfold trace, outcome, start_with_gate, bind, getattr, raise, ret.
  destruct (Update.effective_user update), (Update.effective_chat update);
    intros [H|H]; try discriminate; split; reflexivity.
Qed.

Lemma gate_without_user_or_chat_raises_witness :
  trace (start_with_gate Fixture.cfg_handle
           (Update.mk None (Some Fixture.room) None None) Fixture.ctx)
    Fixture.as_member = []
  /\ outcome (start_with_gate Fixture.cfg_handle
                (Update.mk None (Some Fixture.room) None None) Fixture.ctx)
       Fixture.as_member
     = inl (EAttribute "'NoneType' object has no attribute 'id'").
Proof.
  apply gate_without_user_or_chat_raises. left. reflexivity.
Defined.

(** X3. A gate evaluation never does two things: it sends at most one
    message or enters the protected action at most once, never both,
    and only the protected action replies to the command. *)
Theorem gate_at_most_one_action cfg update ctx w :
  (length (sent_messages (trace (start_with_gate cfg update ctx) w))
   + length (business_calls (trace (start_with_gate cfg update ctx) w))
   <= 1)%nat
  /\ (length (replies (trace (start_with_gate cfg update ctx) w))
      <= length (business_calls (trace (start_with_gate cfg update ctx) w)))%nat.
Proof.
  gate_cases cfg update ctx w; try (simpl; lia).
  - rewrite send_join_prompt_run.
    destruct (SILENT_FOR_NOT_JOINED cfg); simpl; lia.
  - rewrite send_join_prompt_run, business_start_run.
    destruct (is_joined (ChatMember.status mb)),
      (SILENT_FOR_NOT_JOINED cfg), (Update.message update); simpl; lia.
Qed.

(** X4. Outside silent mode, a gate evaluation on an update that carries
    a user and a chat does exactly one thing: one message sent or one
    entry into the protected action. *)
Theorem gate_exactly_one_action cfg update ctx w u c :
  SILENT_FOR_NOT_JOINED cfg = false ->
  Update.effective_user update = Some u ->
  Update.effective_chat update = Some c ->
  (length (sent_messages (trace (start_with_gate cfg update ctx) w))
   + length (business_calls (trace (start_with_gate cfg update ctx) w))
   = 1)%nat.
Proof.
  intros Hs Hu Hc. unfold trace.
  pose proof (start_with_gate_run cfg update ctx w u c Hu Hc) as E.
  cbv zeta in E. rewrite E. cbn [fst].
  destruct (on_get_chat_member w (REQUIRED_CHAT cfg) (User.id u)) as [e|m];
    [|destruct (is_joined (ChatMember.status m))];
    rewrite ?send_join_prompt_run, ?business_start_run, ?Hs;
    destruct (Update.message update); reflexivity.
Qed.

Lemma gate_exactly_one_action_witness :
  (length (sent_messages (trace (start_with_gate Fixture.cfg_handle
                                   Fixture.start_update Fixture.ctx)
                            Fixture.as_forbidden))
   + length (business_calls (trace (start_with_gate Fixture.cfg_handle
                                      Fixture.start_update Fixture.ctx)
                               Fixture.as_forbidden))
   = 1)%nat.
Proof.
  exact (gate_exactly_one_action Fixture.cfg_handle Fixture.start_update
           Fixture.ctx Fixture.as_forbidden Fixture.alice Fixture.room
           eq_refl eq_refl eq_refl).
Defined.

(** X5. When the servers accept every message and the update carries a
    user, a chat and a message, the gate returns normally whatever the
    lookup answers, an error included. *)
Theorem gate_returns_when_messages_accepted cfg update ctx w u c msg :
  accepts_messages w ->
  Update.effective_user update = Some u ->
  Update.effective_chat update = Some c ->
  Update.message update = Some msg ->
  outcome (start_with_gate cfg update ctx) w = inr tt.
Proof.
  intros [Hsend Hreply] Hu Hc Hm. unfold outcome.
  pose proof (start_with_gate_run cfg update ctx w u c Hu Hc) as E.
  cbv zeta in E. rewrite E. cbn [snd].
  destruct (on_get_chat_member w (REQUIRED_CHAT cfg) (User.id u)) as [e|m];
    [|destruct (is_joined (ChatMember.status m))];
    rewrite ?send_join_prompt_run, ?business_start_run, ?Hm;
    destruct (SILENT_FOR_NOT_JOINED cfg); cbn [snd];
    rewrite ?Hsend, ?Hreply; reflexivity.
Qed.

Lemma accepts_messages_world_with r : accepts_messages (Fixture.world_with r).
Proof. split; reflexivity. Qed.

Lemma gate_returns_when_messages_accepted_witness :
  outcome (start_with_gate Fixture.cfg_handle Fixture.start_update
             Fixture.ctx) Fixture.as_forbidden = inr tt.
Proof.
  exact (gate_returns_when_messages_accepted Fixture.cfg_handle
           Fixture.start_update Fixture.ctx Fixture.as_forbidden
           Fixture.alice Fixture.room (Message.mk 1 Fixture.room)
           (accepts_messages_world_with _) eq_refl eq_refl eq_refl).
Defined.

(** X6. Whatever the gate sends goes to the chat the command came from
    and carries a keyboard: the gate sends nothing but join prompts. *)
Theorem gate_sends_prompts_to_command_chat cfg update ctx w chat_id text k :
  In (chat_id, text, k)
    (sent_messages (trace (start_with_gate cfg update ctx) w)) ->
  (exists c, Update.effective_chat update = Some c /\ Chat.id c = chat_id)
  /\ k = Some (prompt_buttons cfg).
Proof.
  intros Hin.
  gate_cases cfg update ctx w; try contradiction.
  - rewrite send_join_prompt_run in Hin.
    destruct (SILENT_FOR_NOT_JOINED cfg); in_cases Hin.
    injection Hin as <- _ <-. eauto.
  - destruct (is_joined (ChatMember.status mb));
      [rewrite business_start_run in Hin; destruct (Update.message update)
      |rewrite send_join_prompt_run in Hin;
       destruct (SILENT_FOR_NOT_JOINED cfg)];
      in_cases Hin.
    injection Hin as <- _ <-. eauto.
Qed.

Lemma gate_sends_prompts_to_command_chat_witness :
  exists c, Update.effective_chat Fixture.start_update = Some c
            /\ Chat.id c = 42.
Proof.
  assert (H : In (42, PROMPT_TEXT, Some (prompt_buttons Fixture.cfg_handle))
                (sent_messages (trace (start_with_gate Fixture.cfg_handle
                                         Fixture.start_update Fixture.ctx)
                                  Fixture.as_left))).
  { vm_compute. left. reflexivity. }
  exact (proj1 (gate_sends_prompts_to_command_chat _ _ _ _ _ _ _ H)).
Defined.

(** X7. When the lookup returns a joined status and the update carries
    a message, the protected action replies to that message, once, and
    the gate ends the way that reply ends. *)
Theorem gate_joined_replies_to_command cfg update ctx w m msg :
  In (inr m) (lookups (trace (start_with_gate cfg update ctx) w)) ->
  is_joined (ChatMember.status m) = true ->
  Update.message update = Some msg ->
  replies (trace (start_with_gate cfg update ctx) w) = [(msg, BUSINESS_TEXT)]
  /\ outcome (start_with_gate cfg update ctx) w
     = lift_result (on_reply_text w msg BUSINESS_TEXT).
Proof.
  intros Hin Hj Hm.
  gate_cases cfg update ctx w; try contradiction.
  - rewrite send_join_prompt_run in Hin.
    destruct (SILENT_FOR_NOT_JOINED cfg); in_cases Hin.
  - assert (mb = m) as ->.
    { destruct (is_joined (ChatMember.status mb));
        [rewrite business_start_run, Hm in Hin
        |rewrite send_join_prompt_run in Hin;
         destruct (SILENT_FOR_NOT_JOINED cfg)];
        in_cases Hin. }
    rewrite Hj, business_start_run, Hm. split; reflexivity.
Qed.

Lemma gate_joined_replies_to_command_witness :
  replies (trace (start_with_gate Fixture.cfg_silent Fixture.start_update
                    Fixture.ctx) Fixture.as_member)
  = [(Message.mk 1 Fixture.room, BUSINESS_TEXT)]
  /\ outcome (start_with_gate Fixture.cfg_silent Fixture.start_update
                Fixture.ctx) Fixture.as_member
     = lift_result (on_reply_text Fixture.as_member
                      (Message.mk 1 Fixture.room) BUSINESS_TEXT).
Proof.
  apply (gate_joined_replies_to_command Fixture.cfg_silent
           Fixture.start_update Fixture.ctx Fixture.as_member
           (ChatMember.mk ChatMemberStatus.MEMBER)).
  - vm_compute. left. reflexivity.
  - reflexivity.
  - reflexivity.
Defined.

(** X8. When the lookup returns a joined status but the update carries
    no message (an edited command), the protected action is entered and
    raises [AttributeError]: nothing is sent, nothing is replied. *)
Theorem gate_joined_without_message_raises cfg update ctx w m :
  In (inr m) (lookups (trace (start_with_gate cfg update ctx) w)) ->
  is_joined (ChatMember.status m) = true ->
  Update.message update = None ->
  business_calls (trace (start_with_gate cfg update ctx) w)
    = [(update, ctx)]
  /\ replies (trace (start_with_gate cfg update ctx) w) = []
  /\ sent_messages (trace (start_with_gate cfg update ctx) w) = []
  /\ outcome (start_with_gate cfg update ctx) w
     = inl (EAttribute "'NoneType' object has no attribute 'reply_text'").
Proof.
  intros Hin Hj Hm.
  gate_cases cfg update ctx w; try contradiction.
  - rewrite send_join_prompt_run in Hin.
    destruct (SILENT_FOR_NOT_JOINED cfg); in_cases Hin.
  - assert (mb = m) as ->.
    { destruct (is_joined (ChatMember.status mb));
        [rewrite business_start_run, Hm in Hin
        |rewrite send_join_prompt_run in Hin;
         destruct (SILENT_FOR_NOT_JOINED cfg)];
        in_cases Hin. }
    rewrite Hj, business_start_run, Hm. repeat split; reflexivity.
Qed.

Lemma gate_joined_without_message_raises_witness :
  outcome (start_with_gate Fixture.cfg_handle
             (Update.mk (Some Fixture.alice) (Some Fixture.room) None None)
             Fixture.ctx) Fixture.as_member
  = inl (EAttribute "'NoneType' object has no attribute 'reply_text'").
Proof.
  apply (gate_joined_without_message_raises Fixture.cfg_handle
           (Update.mk (Some Fixture.alice) (Some Fixture.room) None None)
           Fixture.ctx Fixture.as_member
           (ChatMember.mk ChatMemberStatus.MEMBER)).
  - vm_compute. left. reflexivity.
  - reflexivity.
  - reflexivity.
Defined.

(** X9. The gate looks at the status only through [is_joined]: two
    statuses on the same side of [is_joined] give the same messages, the
    same entries into the protected action, the same replies and the
    same end, so an unknown status is handled like [left]. *)
Theorem gate_depends_on_is_joined_only cfg update ctx w m1 m2 :
  is_joined (ChatMember.status m1) = is_joined (ChatMember.status m2) ->
  sent_messages (trace (start_with_gate cfg update ctx)
                   (with_lookup w (inr m1)))
  = sent_messages (trace (start_with_gate cfg update ctx)
                     (with_lookup w (inr m2)))
  /\ business_calls (trace (start_with_gate cfg update ctx)
                       (with_lookup w (inr m1)))
     = business_calls (trace (start_with_gate cfg update ctx)
                         (with_lookup w (inr m2)))
  /\ replies (trace (start_with_gate cfg update ctx)
                (with_lookup w (inr m1)))
     = replies (trace (start_with_gate cfg update ctx)
                  (with_lookup w (inr m2)))
  /\ outcome (start_with_gate cfg update ctx) (with_lookup w (inr m1))
     = outcome (start_with_gate cfg update ctx) (with_lookup w (inr m2)).
Proof.
  intros Hj. unfold trace, outcome.
  destruct (Update.effective_user update) as [u|] eqn:Hu;
    [destruct (Update.effective_chat update) as [c|] eqn:Hc|].
  - pose proof (start_with_gate_run cfg update ctx (with_lookup w (inr m1))
                  u c Hu Hc) as E1.
    pose proof (start_with_gate_run cfg update ctx (with_lookup w (inr m2))
                  u c Hu Hc) as E2.
    cbv zeta in E1, E2. cbn [with_lookup on_get_chat_member] in E1, E2.
    rewrite E1, E2, Hj. cbn [fst snd].
    rewrite !send_join_prompt_run, !business_start_run.
    destruct (is_joined (ChatMember.status m2)),
      (SILENT_FOR_NOT_JOINED cfg), (Update.message update);
      repeat split; reflexivity.
  - unfold start_with_gate, bind, getattr, raise, ret. rewrite Hu, Hc.
    repeat split; reflexivity.
  - unfold start_with_gate, bind, getattr, raise, ret. rewrite Hu.
    repeat split; reflexivity.
Qed.

Lemma gate_depends_on_is_joined_only_witness :
  sent_messages (trace (start_with_gate Fixture.cfg_handle
                          Fixture.start_update Fixture.ctx)
                   (with_lookup Fixture.as_member
                      (inr (ChatMember.mk "unknown_future_status"))))
  = sent_messages (trace (start_with_gate Fixture.cfg_handle
                            Fixture.start_update Fixture.ctx)
                     (with_lookup Fixture.as_member
                        (inr (ChatMember.mk ChatMemberStatus.LEFT)))).
Proof.
  exact (proj1 (gate_depends_on_is_joined_only Fixture.cfg_handle
                  Fixture.start_update Fixture.ctx Fixture.as_member
                  (ChatMember.mk "unknown_future_status")
                  (ChatMember.mk ChatMemberStatus.LEFT) eq_refl)).
Defined.

(** ** Further properties of the recheck handler *)

(** X10. A recheck whose acknowledgement went through and whose callback
    query carries a message of a chat with a non-zero id makes one
    lookup: it asks for the user who pressed the button, in
    [REQUIRED_CHAT]. *)
Theorem recheck_looks_up_presser_once cfg update ctx w q msg :
  Update.callback_query update = Some q ->
  on_answer w q = inr tt ->
  CallbackQuery.message q = Some msg ->
  Chat.id (Message.chat msg) <> 0 ->
  lookup_requests (trace (on_recheck cfg update ctx) w)
  = [(REQUIRED_CHAT cfg, User.id (CallbackQuery.from_user q))].
Proof.
  intros Hq Hack Hmsg Hid. unfold trace.
  rewrite (on_recheck_run cfg update ctx w q Hq), Hack, Hmsg. cbv zeta.
  apply Z.eqb_neq in Hid. rewrite Hid. cbn [fst].
  unfold recheck_reply. rewrite send_join_prompt_run.
  destruct (on_get_chat_member w (REQUIRED_CHAT cfg)
              (User.id (CallbackQuery.from_user q))) as [e|mb];
    [|destruct (is_joined (ChatMember.status mb))];
    destruct (SILENT_FOR_NOT_JOINED cfg); reflexivity.
Qed.

Lemma recheck_looks_up_presser_once_witness :
  lookup_requests (trace (on_recheck Fixture.cfg_silent
                            Fixture.recheck_update Fixture.ctx)
                     Fixture.as_left)
  = [(ChatInt (-1001234567890), 7)].
Proof.
  apply (recheck_looks_up_presser_once Fixture.cfg_silent
           Fixture.recheck_update Fixture.ctx Fixture.as_left
           Fixture.recheck_query (Message.mk 2 Fixture.room));
    [reflexivity | reflexivity | reflexivity | discriminate].
Defined.

(** X11. A recheck whose callback query carries no message, or a message
    of a chat with id 0, stops after the acknowledgement: no lookup, no
    message, a normal return. *)
Theorem recheck_without_chat_stops cfg update ctx w q :
  Update.callback_query update = Some q ->
  on_answer w q = inr tt ->
  CallbackQuery.message q = None
  \/ (exists msg, CallbackQuery.message q = Some msg
                  /\ Chat.id (Message.chat msg) = 0) ->
  trace (on_recheck cfg update ctx) w = [EvAnswer q]
  /\ outcome (on_recheck cfg update ctx) w = inr tt.
Proof.
  intros Hq Hack Hno. unfold trace, outcome.
  rewrite (on_recheck_run cfg update ctx w q Hq), Hack.
  destruct Hno as [->|(msg & -> & Hz)]; [split; reflexivity|].
  cbv zeta. rewrite Hz. split; reflexivity.
Qed.

Lemma recheck_without_chat_stops_witness :
  trace (on_recheck Fixture.cfg_handle
           (Update.mk (Some Fixture.alice) None None
              (Some (CallbackQuery.mk "q2" Fixture.alice None BTN_RECHECK)))
           Fixture.ctx) Fixture.as_member
  = [EvAnswer (CallbackQuery.mk "q2" Fixture.alice None BTN_RECHECK)]
  /\ outcome (on_recheck Fixture.cfg_handle
                (Update.mk (Some Fixture.alice) None None
                   (Some (CallbackQuery.mk "q2" Fixture.alice None
                            BTN_RECHECK)))
                Fixture.ctx) Fixture.as_member = inr tt.
Proof.
  apply recheck_without_chat_stops;
    [reflexivity | reflexivity | left; reflexivity].
Defined.

(** X12. When the acknowledgement of the callback query raises, the
    recheck handler raises that error and has done nothing else. *)
Theorem recheck_ack_error_propagates cfg update ctx w q e :
  Update.callback_query update = Some q ->
  on_answer w q = inl e ->
  trace (on_recheck cfg update ctx) w = [EvAnswer q]
  /\ outcome (on_recheck cfg update ctx) w = inl (ETelegram e).
Proof.
  intros Hq Hack. unfold trace, outcome.
  rewrite (on_recheck_run cfg update ctx w q Hq), Hack.
  split; reflexivity.
Qed.

Lemma recheck_ack_error_propagates_witness :
  trace (on_recheck Fixture.cfg_handle Fixture.recheck_update Fixture.ctx)
    ack_refused
  = [EvAnswer Fixture.recheck_query]
  /\ outcome (on_recheck Fixture.cfg_handle Fixture.recheck_update
                Fixture.ctx) ack_refused
     = inl (ETelegram query_too_old).
Proof.
  apply recheck_ack_error_propagates; reflexivity.
Defined.

(** X13. A recheck makes at most one acknowledgement, one lookup and one
    send, and never replies to a message. *)
Theorem recheck_at_most_one_of_each cfg update ctx w :
  (length (acknowledgements (trace (on_recheck cfg update ctx) w)) <= 1)%nat
  /\ (length (lookups (trace (on_recheck cfg update ctx) w)) <= 1)%nat
  /\ (length (sent_messages (trace (on_recheck cfg update ctx) w)) <= 1)%nat
  /\ replies (trace (on_recheck cfg update ctx) w) = [].
Proof.
  recheck_cases cfg update ctx w;
    try (repeat split; simpl; solve [lia | reflexivity]).
  - destruct (SILENT_FOR_NOT_JOINED cfg);
      repeat split; simpl; solve [lia | reflexivity].
  - rewrite send_join_prompt_run.
    destruct (is_joined (ChatMember.status mb)),
      (SILENT_FOR_NOT_JOINED cfg);
      repeat split; simpl; solve [lia | reflexivity].
Qed.

(** X14. When the lookup of a recheck raises: in silent mode nothing is
    sent and the handler returns; otherwise one message without keyboard
    is sent, the short failure note with the type name and the message
    of the error, not the join prompt, and the handler ends the way that
    send ends. *)
Theorem recheck_lookup_error_is_reported cfg update ctx w e :
  In (inl e) (lookups (trace (on_recheck cfg update ctx) w)) ->
  (SILENT_FOR_NOT_JOINED cfg = true ->
   sent_messages (trace (on_recheck cfg update ctx) w) = []
   /\ outcome (on_recheck cfg update ctx) w = inr tt)
  /\ (SILENT_FOR_NOT_JOINED cfg = false ->
      exists chat_id,
        sent_messages (trace (on_recheck cfg update ctx) w)
          = [(chat_id,
              RECHECK_FAILED_PREFIX +:+ type_name e +:+ ": " +:+ message e,
              None)]
        /\ outcome (on_recheck cfg update ctx) w
           = lift_result
               (on_send_message w chat_id
                  (RECHECK_FAILED_PREFIX +:+ type_name e +:+ ": "
                     +:+ message e) None)).
Proof.
  intros Hin.
  recheck_cases cfg update ctx w; try solve [in_cases Hin].
  - match goal with
    | H : on_get_chat_member _ _ _ = inl ?x |- _ => assert (x = e) as ->
    end.
    { destruct (SILENT_FOR_NOT_JOINED cfg); in_cases Hin. }
    split; intros Hs; rewrite Hs; cbn [fst snd].
    + split; reflexivity.
    + eexists. split; reflexivity.
  - exfalso. rewrite send_join_prompt_run in Hin.
    destruct (is_joined (ChatMember.status mb)),
      (SILENT_FOR_NOT_JOINED cfg); in_cases Hin.
Qed.

Lemma recheck_lookup_error_is_reported_witness :
  exists chat_id,
    sent_messages (trace (on_recheck Fixture.cfg_handle
                            Fixture.recheck_update Fixture.ctx)
                     Fixture.as_forbidden)
    = [(chat_id,
        RECHECK_FAILED_PREFIX +:+ "Forbidden" +:+ ": "
          +:+ "bot is not a member of the channel chat",
        None)].
Proof.
  assert (H : In (inl Fixture.forbidden)
                (lookups (trace (on_recheck Fixture.cfg_handle
                                   Fixture.recheck_update Fixture.ctx)
                            Fixture.as_forbidden))).
  { vm_compute. left. reflexivity. }
  destruct (proj2 (recheck_lookup_error_is_reported _ _ _ _ _ H) eq_refl)
    as (chat_id & Hsent & _).
  exists chat_id. exact Hsent.
Defined.

(** X15. When the lookup of a recheck returns a status that is not
    joined and silent mode is off, the handler sends the join prompt
    again, unchanged: the standard text and the keyboard of every
    prompt, to the chat of the message the button belongs to. *)
Theorem recheck_not_joined_prompts_again cfg update ctx w m :
  SILENT_FOR_NOT_JOINED cfg = false ->
  In (inr m) (lookups (trace (on_recheck cfg update ctx) w)) ->
  is_joined (ChatMember.status m) = false ->
  exists q msg,
    Update.callback_query update = Some q
    /\ CallbackQuery.message q = Some msg
    /\ sent_messages (trace (on_recheck cfg update ctx) w)
       = [(Chat.id (Message.chat msg), PROMPT_TEXT,
           Some (prompt_buttons cfg))]
    /\ outcome (on_recheck cfg update ctx) w
       = lift_result (on_send_message w (Chat.id (Message.chat msg))
                        PROMPT_TEXT (Some (prompt_buttons cfg))).
Proof.
  intros Hs Hin Hj.
  recheck_cases cfg update ctx w; try solve [in_cases Hin].
  - rewrite Hs in Hin. in_cases Hin.
  - assert (mb = m) as ->.
    { rewrite send_join_prompt_run, Hs in Hin.
      destruct (is_joined (ChatMember.status mb)); in_cases Hin. }
    rewrite Hj, send_join_prompt_run, Hs. cbn [fst snd].
    exists q, msg. repeat split; try assumption; reflexivity.
Qed.

Lemma recheck_not_joined_prompts_again_witness :
  exists q msg,
    Update.callback_query Fixture.recheck_update = Some q
    /\ CallbackQuery.message q = Some msg
    /\ sent_messages (trace (on_recheck Fixture.cfg_handle
                               Fixture.recheck_update Fixture.ctx)
                        Fixture.as_left)
       = [(Chat.id (Message.chat msg), PROMPT_TEXT,
           Some (prompt_buttons Fixture.cfg_handle))]
    /\ outcome (on_recheck Fixture.cfg_handle Fixture.recheck_update
                  Fixture.ctx) Fixture.as_left
       = lift_result (on_send_message Fixture.as_left
                        (Chat.id (Message.chat msg)) PROMPT_TEXT
                        (Some (prompt_buttons Fixture.cfg_handle))).
Proof.
  apply (recheck_not_joined_prompts_again Fixture.cfg_handle
           Fixture.recheck_update Fixture.ctx Fixture.as_left
           (ChatMember.mk ChatMemberStatus.LEFT)).
  - reflexivity.
  - vm_compute. left. reflexivity.
  - reflexivity.
Defined.

(** X16. Whatever a recheck sends goes to the chat of the message the
    button belongs to, and is one of three messages: the join prompt
    with its keyboard, or, without keyboard, the confirmation or the
    failure note. *)
Theorem recheck_sends_to_button_chat cfg update ctx w chat_id text k :
  In (chat_id, text, k)
    (sent_messages (trace (on_recheck cfg update ctx) w)) ->
  (exists q msg,
      Update.callback_query update = Some q
      /\ CallbackQuery.message q = Some msg
      /\ Chat.id (Message.chat msg) = chat_id)
  /\ chat_id <> 0
  /\ ((text = PROMPT_TEXT /\ k = Some (prompt_buttons cfg))
      \/ (text = CONFIRM_TEXT /\ k = None)
      \/ (exists e,
             text = RECHECK_FAILED_PREFIX +:+ type_name e +:+ ": "
                      +:+ message e
             /\ k = None)).
Proof.
  intros Hin.
  recheck_cases cfg update ctx w; try solve [in_cases Hin].
  - destruct (SILENT_FOR_NOT_JOINED cfg); in_cases Hin.
    injection Hin as <- <- <-. apply Z.eqb_neq in Hzero.
    split; [eauto|]. split; [assumption|]. right. right. eauto.
  - rewrite send_join_prompt_run in Hin.
    destruct (is_joined (ChatMember.status mb)),
      (SILENT_FOR_NOT_JOINED cfg); in_cases Hin;
      injection Hin as <- <- <-; apply Z.eqb_neq in Hzero;
      (split; [eauto|]); (split; [assumption|]); auto.
Qed.

Lemma recheck_sends_to_button_chat_witness :
  (exists q msg,
      Update.callback_query Fixture.recheck_update = Some q
      /\ CallbackQuery.message q = Some msg
      /\ Chat.id (Message.chat msg) = 42)
  /\ 42 <> 0.
Proof.
  assert (H : In (42, CONFIRM_TEXT, None)
                (sent_messages (trace (on_recheck Fixture.cfg_handle
                                         Fixture.recheck_update Fixture.ctx)
                                  Fixture.as_member))).
  { vm_compute. left. reflexivity. }
  destruct (recheck_sends_to_button_chat _ _ _ _ _ _ _ H) as (H1 & H2 & _).
  split; [exact H1 | exact H2].
Defined.

(** X17. When the servers accept the acknowledgement and every message,
    a recheck returns normally whatever the lookup answers, an error
    included. *)
Theorem recheck_returns_when_messages_accepted cfg update ctx w q :
  accepts_messages w ->
  Update.callback_query update = Some q ->
  on_answer w q = inr tt ->
  outcome (on_recheck cfg update ctx) w = inr tt.
Proof.
  intros [Hsend _] Hq Hack. unfold outcome.
  rewrite (on_recheck_run cfg update ctx w q Hq), Hack.
  destruct (CallbackQuery.message q) as [msg|]; [|reflexivity].
  cbv zeta. destruct (Chat.id (Message.chat msg) =? 0); [reflexivity|].
  cbn [snd]. unfold recheck_reply. rewrite send_join_prompt_run.
  destruct (on_get_chat_member w (REQUIRED_CHAT cfg)
              (User.id (CallbackQuery.from_user q))) as [e|mb];
    [|destruct (is_joined (ChatMember.status mb))];
    destruct (SILENT_FOR_NOT_JOINED cfg); cbn [snd];
    rewrite ?Hsend; reflexivity.
Qed.

Lemma recheck_returns_when_messages_accepted_witness :
  outcome (on_recheck Fixture.cfg_handle Fixture.recheck_update Fixture.ctx)
    Fixture.as_forbidden = inr tt.
Proof.
  exact (recheck_returns_when_messages_accepted Fixture.cfg_handle
           Fixture.recheck_update Fixture.ctx Fixture.as_forbidden
           Fixture.recheck_query (accepts_messages_world_with _)
           eq_refl eq_refl).
Defined.

(** X18. A recheck too looks at the status only through [is_joined]. *)
Theorem recheck_depends_on_is_joined_only cfg update ctx w m1 m2 :
  is_joined (ChatMember.status m1) = is_joined (ChatMember.status m2) ->
  sent_messages (trace (on_recheck cfg update ctx) (with_lookup w (inr m1)))
  = sent_messages (trace (on_recheck cfg update ctx)
                     (with_lookup w (inr m2)))
  /\ outcome (on_recheck cfg update ctx) (with_lookup w (inr m1))
     = outcome (on_recheck cfg update ctx) (with_lookup w (inr m2)).
Proof.
  intros Hj. unfold trace, outcome.
  destruct (Update.callback_query update) as [q|] eqn:Hq.
  - rewrite !(on_recheck_run cfg update ctx _ q Hq).
    cbn [with_lookup on_answer on_get_chat_member].
    destruct (on_answer w q) as [e|ok]; [split; reflexivity|].
    destruct (CallbackQuery.message q) as [msg|]; [|split; reflexivity].
    cbv zeta.
    destruct (Chat.id (Message.chat msg) =? 0); [split; reflexivity|].
    cbn [fst snd]. unfold recheck_reply. rewrite Hj.
    rewrite !send_join_prompt_run.
    destruct (is_joined (ChatMember.status m2)),
      (SILENT_FOR_NOT_JOINED cfg); split; reflexivity.
  - unfold on_recheck, bind, getattr, raise. rewrite Hq.
    split; reflexivity.
Qed.

Lemma recheck_depends_on_is_joined_only_witness :
  sent_messages (trace (on_recheck Fixture.cfg_handle Fixture.recheck_update
                          Fixture.ctx)
                   (with_lookup Fixture.as_left
                      (inr (ChatMember.mk ChatMemberStatus.RESTRICTED))))
  = sent_messages (trace (on_recheck Fixture.cfg_handle
                            Fixture.recheck_update Fixture.ctx)
                     (with_lookup Fixture.as_left
                        (inr (ChatMember.mk ChatMemberStatus.OWNER)))).
Proof.
  exact (proj1 (recheck_depends_on_is_joined_only Fixture.cfg_handle
                  Fixture.recheck_update Fixture.ctx Fixture.as_left
                  (ChatMember.mk ChatMemberStatus.RESTRICTED)
                  (ChatMember.mk ChatMemberStatus.OWNER) eq_refl)).
Defined.

(** ** Further properties of the prompt *)

(** X19. The text of every message sent with a keyboard is the standard
    prompt text, alone or after a non-empty extra text and a blank
    line: an extra text never replaces the standard one. *)
Theorem prompt_text_keeps_standard_body cfg w chat_id text markup :
  is_prompt_of cfg w (chat_id, text, Some markup) ->
  text = PROMPT_TEXT
  \/ exists extra,
      extra <> ""
      /\ text = extra +:+ PyStr.LF +:+ PyStr.LF +:+ PROMPT_TEXT.
Proof.
  assert (Hpt : forall extra,
             prompt_text extra = PROMPT_TEXT
             \/ exists extra',
                 extra' <> ""
                 /\ prompt_text extra
                    = extra' +:+ PyStr.LF +:+ PyStr.LF +:+ PROMPT_TEXT).
  { intros [|a extra]; [left; reflexivity|].
    right. exists (String a extra). split; [discriminate | reflexivity]. }
  intros [(update & ctx & Hin)|[(update & ctx & Hin)|(c & bot & extra & Hin)]].
  - gate_cases cfg update ctx w; try contradiction.
    + rewrite send_join_prompt_run in Hin.
      destruct (SILENT_FOR_NOT_JOINED cfg); in_cases Hin.
      injection Hin as _ <- _. apply Hpt.
    + destruct (is_joined (ChatMember.status mb));
        [rewrite business_start_run in Hin; destruct (Update.message update)
        |rewrite send_join_prompt_run in Hin;
         destruct (SILENT_FOR_NOT_JOINED cfg)];
        in_cases Hin.
      injection Hin as _ <- _. apply Hpt.
  - recheck_cases cfg update ctx w; try solve [in_cases Hin].
    + destruct (SILENT_FOR_NOT_JOINED cfg); in_cases Hin.
    + rewrite send_join_prompt_run in Hin.
      destruct (is_joined (ChatMember.status mb)),
        (SILENT_FOR_NOT_JOINED cfg); in_cases Hin.
      injection Hin as _ <- _. apply Hpt.
  - unfold trace in Hin. rewrite send_join_prompt_run in Hin.
    destruct (SILENT_FOR_NOT_JOINED cfg); in_cases Hin.
    injection Hin as _ <- _. apply Hpt.
Qed.

Lemma prompt_text_keeps_standard_body_witness :
  lookup_failed_text Fixture.cfg_handle Fixture.forbidden
    +:+ PyStr.LF +:+ PyStr.LF +:+ PROMPT_TEXT = PROMPT_TEXT
  \/ exists extra,
      extra <> ""
      /\ lookup_failed_text Fixture.cfg_handle Fixture.forbidden
           +:+ PyStr.LF +:+ PyStr.LF +:+ PROMPT_TEXT
         = extra +:+ PyStr.LF +:+ PyStr.LF +:+ PROMPT_TEXT.
Proof.
  apply (prompt_text_keeps_standard_body Fixture.cfg_handle
           Fixture.as_forbidden 42 _ (prompt_buttons Fixture.cfg_handle)).
  left. exists Fixture.start_update, Fixture.ctx.
  vm_compute. left. reflexivity.
Defined.

(** X20. The keyboard of every prompt has one button per row: the
    recheck button alone, or a link button with a non-empty URL above
    the recheck button. *)
Theorem prompt_keyboard_layout cfg w chat_id text markup :
  is_prompt_of cfg w (chat_id, text, Some markup) ->
  markup = [[InlineKeyboardButton.mk RECHECK_BUTTON_TEXT None
               (Some BTN_RECHECK)]]
  \/ exists url,
      url <> ""
      /\ markup = [[InlineKeyboardButton.mk JOIN_BUTTON_TEXT (Some url) None];
                   [InlineKeyboardButton.mk RECHECK_BUTTON_TEXT None
                      (Some BTN_RECHECK)]].
Proof.
  intros Hp. apply prompt_keyboard in Hp. subst markup.
  unfold prompt_buttons.
  destruct (PyStr.truthy (build_join_url cfg)) eqn:Hu; [|left; reflexivity].
  right. exists (build_join_url cfg). split; [|reflexivity].
  intros E. rewrite E in Hu. discriminate.
Qed.

Lemma prompt_keyboard_layout_witness :
  prompt_buttons cfg_numeric
  = [[InlineKeyboardButton.mk RECHECK_BUTTON_TEXT None (Some BTN_RECHECK)]]
  \/ exists url,
      url <> ""
      /\ prompt_buttons cfg_numeric
         = [[InlineKeyboardButton.mk JOIN_BUTTON_TEXT (Some url) None];
            [InlineKeyboardButton.mk RECHECK_BUTTON_TEXT None
               (Some BTN_RECHECK)]].
Proof.
  apply (prompt_keyboard_layout cfg_numeric Fixture.as_left 42 PROMPT_TEXT).
  left. exists Fixture.start_update, Fixture.ctx.
  vm_compute. left. reflexivity.
Defined.

(** ** Further properties of the start-up *)

Lemma truthy_true (s : string) : PyStr.truthy s = true <-> s <> "".
Proof. destruct s; simpl; split; congruence. Qed.

Lemma getenv_blank environ key :
  PyStr.truthy (PyStr.strip (getenv environ key "")) = false ->
  missing_or_blank environ key.
Proof.
  unfold missing_or_blank, getenv.
  destruct (environ !! key) as [v|]; [|trivial].
  apply truthy_false.
Qed.

(** X21. The module body raises [RuntimeError] only when [BOT_TOKEN] or
    [REQUIRED_CHAT] is missing or blank. *)
Theorem startup_runtime_error_only_when_missing py environ msg :
  module_init py environ = inl (ERuntime msg) ->
  missing_or_blank environ "BOT_TOKEN"
  \/ missing_or_blank environ "REQUIRED_CHAT".
Proof.
  unfold module_init.
  destruct (PyStr.truthy (PyStr.strip (getenv environ "BOT_TOKEN" "")))
    eqn:Ht; cbn [negb]; [|intros _; left; apply getenv_blank, Ht].
  destruct (PyStr.truthy (PyStr.strip (getenv environ "REQUIRED_CHAT" "")))
    eqn:Hc; cbn [negb]; [|intros _; right; apply getenv_blank, Hc].
  destruct (Builtins.isdigit py _); [|discriminate].
  destruct (Builtins.int py _); discriminate.
Qed.

Lemma startup_runtime_error_only_when_missing_witness :
  missing_or_blank (∅ : gmap string string) "BOT_TOKEN"
  \/ missing_or_blank (∅ : gmap string string) "REQUIRED_CHAT".
Proof.
  assert (H : module_init ascii_builtins ∅
              = inl (ERuntime "BOT_TOKEN 未设置：请在 .env 配置 BOT_TOKEN=xxx")).
  { vm_compute. reflexivity. }
  exact (startup_runtime_error_only_when_missing _ _ _ H).
Defined.

(** X22. [BOT_TOKEN] is checked first: when it is missing or blank the
    error names [BOT_TOKEN], whatever [REQUIRED_CHAT] holds. *)
Theorem startup_reports_token_first py environ :
  missing_or_blank environ "BOT_TOKEN" ->
  module_init py environ
  = inl (ERuntime "BOT_TOKEN 未设置：请在 .env 配置 BOT_TOKEN=xxx").
Proof.
  intros H. apply missing_or_blank_getenv in H.
  unfold module_init. rewrite H. reflexivity.
Qed.

Lemma startup_reports_token_first_witness :
  module_init ascii_builtins
    {[ "BOT_TOKEN" := PyStr.bytes [227; 128; 128; 32]%nat;
       "REQUIRED_CHAT" := "" ]}
  = inl (ERuntime "BOT_TOKEN 未设置：请在 .env 配置 BOT_TOKEN=xxx").
Proof.
  assert (H : missing_or_blank
                ({[ "BOT_TOKEN" := PyStr.bytes [227; 128; 128; 32]%nat;
                    "REQUIRED_CHAT" := "" ]} : gmap string string)
                "BOT_TOKEN").
  { vm_compute. reflexivity. }
  exact (startup_reports_token_first ascii_builtins _ H).
Defined.



(** What a successful module body leaves in the configuration. *)
Lemma module_init_shape py environ cfg :
  module_init py environ = inr cfg ->
  BOT_TOKEN cfg <> ""
  /\ REQUIRED_CHAT_RAW cfg <> ""
  /\ match REQUIRED_CHAT cfg with
     | ChatStr s =>
         s = REQUIRED_CHAT_RAW cfg
         /\ Builtins.isdigit py (PyStr.lstrip_chars "-" s) = false
     | ChatInt n =>
         Builtins.isdigit py (PyStr.lstrip_chars "-" (REQUIRED_CHAT_RAW cfg))
         = true
         /\ Builtins.int py (REQUIRED_CHAT_RAW cfg) = inr n
     end.
Proof.
  unfold module_init.
  destruct (PyStr.truthy (PyStr.strip (getenv environ "BOT_TOKEN" "")))
    eqn:Ht; cbn [negb]; [|discriminate].
  destruct (PyStr.truthy (PyStr.strip (getenv environ "REQUIRED_CHAT" "")))
    eqn:Hc; cbn [negb]; [|discriminate].
  apply truthy_true in Ht, Hc.
  destruct (Builtins.isdigit py _) eqn:Hd.
  - destruct (Builtins.int py _) as [msg|n] eqn:Hn; [discriminate|].
    intros [= <-]. cbn. auto.
  - intros [= <-]. cbn. auto.
Qed.

(** X24. When the module body succeeds, the token and the raw chat are
    not empty; a string [REQUIRED_CHAT] is the raw value itself, which
    did not pass the test [lstrip("-").isdigit()]; an integer
    [REQUIRED_CHAT] is what [int()] answers for the raw value, which
    passed that test. *)
Theorem startup_config_shape py environ cfg :
  module_init py environ = inr cfg ->
  BOT_TOKEN cfg <> ""
  /\ REQUIRED_CHAT_RAW cfg <> ""
  /\ match REQUIRED_CHAT cfg with
     | ChatStr s =>
         s = REQUIRED_CHAT_RAW cfg
         /\ Builtins.isdigit py (PyStr.lstrip_chars "-" s) = false
     | ChatInt n =>
         Builtins.isdigit py (PyStr.lstrip_chars "-" (REQUIRED_CHAT_RAW cfg))
         = true
         /\ Builtins.int py (REQUIRED_CHAT_RAW cfg) = inr n
     end.
Proof. exact (module_init_shape py environ cfg). Qed.

Lemma startup_config_shape_witness :
  BOT_TOKEN Fixture.cfg_silent <> ""
  /\ REQUIRED_CHAT_RAW Fixture.cfg_silent <> ""
  /\ Builtins.isdigit ascii_builtins
       (PyStr.lstrip_chars "-" (REQUIRED_CHAT_RAW Fixture.cfg_silent)) = true
  /\ Builtins.int ascii_builtins (REQUIRED_CHAT_RAW Fixture.cfg_silent)
     = inr (-1001234567890).
Proof.
  assert (H : module_init ascii_builtins
                {[ "BOT_TOKEN" := "123:abc";
                   "REQUIRED_CHAT" := "-1001234567890";
                   "SILENT_FOR_NOT_JOINED" := "True" ]}
              = inr Fixture.cfg_silent).
  { vm_compute. reflexivity. }
  exact (startup_config_shape _ _ _ H).
Defined.

(** Where the fields of a configuration come from. *)
Lemma module_init_fields py environ cfg :
  module_init py environ = inr cfg ->
  BOT_TOKEN cfg = PyStr.strip (getenv environ "BOT_TOKEN" "")
  /\ REQUIRED_CHAT_RAW cfg = PyStr.strip (getenv environ "REQUIRED_CHAT" "")
  /\ JOIN_URL cfg = PyStr.strip (getenv environ "JOIN_URL" "")
  /\ SILENT_FOR_NOT_JOINED cfg
     = String.eqb
         (PyStr.lower
            (PyStr.strip (getenv environ "SILENT_FOR_NOT_JOINED" "false")))
         "true".
Proof.
  unfold module_init.
  destruct (negb _); [discriminate|].
  destruct (negb _); [discriminate|].
  destruct (Builtins.isdigit py _).
  - destruct (Builtins.int py _); [discriminate|].
    intros [= <-]. cbn. auto.
  - intros [= <-]. cbn. auto.
Qed.

(** X25. From the environment to the join link: a non-blank [JOIN_URL]
    is the link, trimmed; without it a [REQUIRED_CHAT] of the form
    @handle gives https://t.me/handle, and a [REQUIRED_CHAT] that does
    not start with @ gives no link. *)
Theorem startup_join_link py environ cfg :
  isdigit_needs_digits py ->
  module_init py environ = inr cfg ->
  (PyStr.strip (getenv environ "JOIN_URL" "") <> "" ->
   build_join_url cfg = PyStr.strip (getenv environ "JOIN_URL" ""))
  /\ (missing_or_blank environ "JOIN_URL" ->
      forall handle,
        PyStr.strip (getenv environ "REQUIRED_CHAT" "") = "@" +:+ handle ->
        build_join_url cfg = "https://t.me/" +:+ handle)
  /\ (missing_or_blank environ "JOIN_URL" ->
      PyStr.startswith (PyStr.strip (getenv environ "REQUIRED_CHAT" "")) "@"
      = false ->
      build_join_url cfg = "").
Proof.
  intros Hpy Hinit.
  destruct (module_init_fields py environ cfg Hinit) as (_ & Hraw & Hurl & _).
  pose proof (module_init_shape py environ cfg Hinit) as (_ & _ & Hchat).
  unfold build_join_url. rewrite Hurl.
  split; [|split].
  - intros Hne. apply truthy_true in Hne. rewrite Hne. reflexivity.
  - intros Hb handle Hh. apply missing_or_blank_getenv in Hb. rewrite Hb.
    rewrite <- Hraw in Hh.
    rewrite (module_init_keeps_handle py environ cfg handle Hpy Hinit Hh).
    reflexivity.
  - intros Hb Hno. apply missing_or_blank_getenv in Hb. rewrite Hb.
    destruct (REQUIRED_CHAT cfg) as [n|s]; [reflexivity|].
    destruct Hchat as [-> _]. rewrite Hraw, Hno. reflexivity.
Qed.

Lemma startup_join_link_witness :
  build_join_url Fixture.cfg_handle = "https://t.me/" +:+ "mychannel".
Proof.
  assert (Hinit : module_init ascii_builtins
                    {[ "BOT_TOKEN" := " 123:abc";
                       "REQUIRED_CHAT" := "@mychannel";
                       "JOIN_URL" := PyStr.bytes [227; 128; 128]%nat ]}
                  = inr Fixture.cfg_handle).
  { vm_compute. reflexivity. }
  assert (Hblank : missing_or_blank
                     ({[ "BOT_TOKEN" := " 123:abc";
                         "REQUIRED_CHAT" := "@mychannel";
                         "JOIN_URL" := PyStr.bytes [227; 128; 128]%nat ]}
                      : gmap string string) "JOIN_URL").
  { vm_compute. reflexivity. }
  assert (Hraw : PyStr.strip
                   (getenv {[ "BOT_TOKEN" := " 123:abc";
                              "REQUIRED_CHAT" := "@mychannel";
                              "JOIN_URL" := PyStr.bytes [227; 128; 128]%nat ]}
                      "REQUIRED_CHAT" "")
                 = "@" +:+ "mychannel").
  { vm_compute. reflexivity. }
  exact (proj1 (proj2 (startup_join_link _ _ _ ascii_isdigit_needs_digits
                         Hinit)) Hblank "mychannel" Hraw).
Defined.

(** X26. Silent mode is on exactly when [SILENT_FOR_NOT_JOINED] is set
    to the word true, in any letter case and with any white space
    around it; unset, it is off. *)
Theorem startup_silent_flag py environ cfg :
  module_init py environ = inr cfg ->
  SILENT_FOR_NOT_JOINED cfg = true
  <-> exists v,
        environ !! "SILENT_FOR_NOT_JOINED" = Some v
        /\ PyStr.lower (PyStr.strip v) = "true".
Proof.
  intros Hinit.
  destruct (module_init_fields py environ cfg Hinit) as (_ & _ & _ & ->).
  rewrite String.eqb_eq. unfold getenv.
  destruct (environ !! "SILENT_FOR_NOT_JOINED") as [v|]; split.
  - eauto.
  - intros (v' & [= <-] & H). exact H.
  - vm_compute. discriminate.
  - intros (v' & [=] & _).
Qed.

Lemma startup_silent_flag_witness :
  SILENT_FOR_NOT_JOINED Fixture.cfg_silent = true
  <-> exists v,
        ({[ "BOT_TOKEN" := "123:abc";
            "REQUIRED_CHAT" := "-1001234567890";
            "SILENT_FOR_NOT_JOINED" :=
              "True" +:+ PyStr.bytes [227; 128; 128]%nat ]}
         : gmap string string)
          !! "SILENT_FOR_NOT_JOINED" = Some v
        /\ PyStr.lower (PyStr.strip v) = "true".
Proof.
  assert (Hinit : module_init ascii_builtins
                    {[ "BOT_TOKEN" := "123:abc";
                       "REQUIRED_CHAT" := "-1001234567890";
                       "SILENT_FOR_NOT_JOINED" :=
                         "True" +:+ PyStr.bytes [227; 128; 128]%nat ]}
                  = inr Fixture.cfg_silent).
  { vm_compute. reflexivity. }
  exact (startup_silent_flag _ _ _ Hinit).
Defined.

(** *** Trimming *)

Lemma append_nil_r (s : string) : s +:+ "" = s.
Proof.
  induction s as [|a s IH]; [reflexivity|].
  change (String a (s +:+ "") = String a s). now rewrite IH.
Qed.

Lemma rev_app_spec (s acc : string) :
  String.rev_app s acc = String.rev s +:+ acc.
Proof.
  revert acc. induction s as [|a s IH]; intros acc; [reflexivity|].
  unfold String.rev. cbn [String.rev_app].
  rewrite (IH (String a acc)), (IH (String a "")), append_assoc.
  reflexivity.
Qed.

Lemma rev_cons (a : ascii) (s : string) :
  String.rev (String a s) = String.rev s +:+ String a "".
Proof. unfold String.rev at 1. cbn [String.rev_app]. apply rev_app_spec. Qed.

Lemma rev_snoc (s : string) (a : ascii) :
  String.rev (s +:+ String a "") = String a (String.rev s).
Proof.
  induction s as [|b s IH]; [reflexivity|].
  change (String b s +:+ String a "") with (String b (s +:+ String a "")).
  rewrite !rev_cons, IH. reflexivity.
Qed.

Lemma rev_rev (s : string) : String.rev (String.rev s) = s.
Proof.
  induction s as [|a s IH]; [reflexivity|].
  rewrite rev_cons, rev_snoc, IH. reflexivity.
Qed.

Lemma rev_append (a b : string) :
  String.rev (a +:+ b) = String.rev b +:+ String.rev a.
Proof.
  induction a as [|x a IH].
  - change ("" +:+ b) with b. change (String.rev "") with "".
    now rewrite append_nil_r.
  - change (String x a +:+ b) with (String x (a +:+ b)).
    rewrite !rev_cons, IH, append_assoc. reflexivity.
Qed.

Lemma rev_length (s : string) : String.length (String.rev s) = String.length s.
Proof.
  induction s as [|a s IH]; [reflexivity|].
  rewrite rev_cons. cbn [String.length].
  rewrite <- IH. generalize (String.rev s). intros r.
  induction r as [|b r IHr]; [reflexivity|].
  change (String b r +:+ String a "") with (String b (r +:+ String a "")).
  cbn [String.length]. now rewrite IHr.
Qed.

Lemma drop_prefix_length p s r :
  PyStr.drop_prefix p s = Some r ->
  String.length s = (String.length p + String.length r)%nat.
Proof.
  revert s. induction p as [|c p IH]; intros s; cbn [PyStr.drop_prefix].
  - intros [= ->]. reflexivity.
  - destruct s as [|d s]; [discriminate|].
    destruct (Ascii.eqb c d); [|discriminate].
    intros H. apply IH in H. cbn [String.length]. lia.
Qed.

Lemma drop_prefix_append p a b r :
  PyStr.drop_prefix p a = Some r ->
  PyStr.drop_prefix p (a +:+ b) = Some (r +:+ b).
Proof.
  revert a. induction p as [|c p IH]; intros a.
  - cbn [PyStr.drop_prefix]. intros [= ->]. reflexivity.
  - destruct a as [|d a]; [discriminate|].
    change (String d a +:+ b) with (String d (a +:+ b)).
    cbn [PyStr.drop_prefix].
    destruct (Ascii.eqb c d); [|discriminate]. apply IH.
Qed.

Lemma drop_token_None tokens s :
  PyStr.drop_token tokens s = None <->
  forall t, In t tokens -> PyStr.drop_prefix t s = None.
Proof.
  induction tokens as [|t l IH]; cbn [PyStr.drop_token].
  - split; [intros _ t []|reflexivity].
  - destruct (PyStr.drop_prefix t s) eqn:E.
    + split; [discriminate|]. intros H.
      rewrite (H t (or_introl eq_refl)) in E. discriminate.
    + rewrite IH. split.
      * intros H t' [<-|Hin]; [exact E | exact (H t' Hin)].
      * intros H t' Hin. apply H. right. exact Hin.
Qed.

Lemma drop_token_shorter tokens s r :
  Forall (fun t => t <> "") tokens ->
  PyStr.drop_token tokens s = Some r ->
  (String.length r < String.length s)%nat.
Proof.
  intros Hne. induction Hne as [|t l Ht _ IH]; cbn [PyStr.drop_token];
    [discriminate|].
  destruct (PyStr.drop_prefix t s) as [r'|] eqn:E; [|exact IH].
  intros [= ->]. apply drop_prefix_length in E.
  destruct t as [|c t]; [contradiction|]. cbn [String.length] in E. lia.
Qed.

Lemma drop_tokens_clean tokens n s :
  Forall (fun t => t <> "") tokens ->
  (String.length s <= n)%nat ->
  PyStr.drop_token tokens (PyStr.drop_tokens n tokens s) = None.
Proof.
  intros Hne. revert s. induction n as [|n IH]; intros s Hn; cbn [PyStr.drop_tokens].
  - destruct (PyStr.drop_token tokens s) as [r|] eqn:E; [|reflexivity].
    apply (drop_token_shorter _ _ _ Hne) in E. lia.
  - destruct (PyStr.drop_token tokens s) as [r|] eqn:E; [|exact E].
    apply IH. apply (drop_token_shorter _ _ _ Hne) in E. lia.
Qed.

Lemma drop_tokens_stable tokens n s :
  PyStr.drop_token tokens s = None -> PyStr.drop_tokens n tokens s = s.
Proof.
  intros E. destruct n; cbn [PyStr.drop_tokens]; [reflexivity|].
  rewrite E. reflexivity.
Qed.

Lemma drop_prefix_split p s r :
  PyStr.drop_prefix p s = Some r -> s = p +:+ r.
Proof.
  revert s. induction p as [|c p IH]; intros s; cbn [PyStr.drop_prefix].
  - intros [= ->]. reflexivity.
  - destruct s as [|d s]; [discriminate|].
    destruct (Ascii.eqb c d) eqn:Hcd; [|discriminate].
    apply Ascii.eqb_eq in Hcd. subst d. intros H. apply IH in H.
    subst s. reflexivity.
Qed.

Lemma drop_token_split tokens s r :
  PyStr.drop_token tokens s = Some r -> exists t, In t tokens /\ s = t +:+ r.
Proof.
  induction tokens as [|t l IH]; cbn [PyStr.drop_token]; [discriminate|].
  destruct (PyStr.drop_prefix t s) as [r'|] eqn:E.
  - intros [= ->]. exists t. split; [left; reflexivity|].
    apply drop_prefix_split, E.
  - intros H. destruct (IH H) as (t' & Hin & Hs). exists t'.
    split; [right; exact Hin | exact Hs].
Qed.

Lemma drop_tokens_suffix tokens n s :
  exists pre, s = pre +:+ PyStr.drop_tokens n tokens s.
Proof.
  revert s. induction n as [|n IH]; intros s; cbn [PyStr.drop_tokens].
  - exists "". reflexivity.
  - destruct (PyStr.drop_token tokens s) as [r|] eqn:E;
      [|exists ""; reflexivity].
    destruct (drop_token_split tokens s r E) as (t & _ & ->).
    destruct (IH r) as (pre & Hr). exists (t +:+ pre).
    rewrite append_assoc, <- Hr. reflexivity.
Qed.

Lemma whitespace_not_empty : Forall (fun t => t <> "") PyStr.whitespace.
Proof. repeat constructor; discriminate. Qed.

Lemma rev_whitespace_not_empty :
  Forall (fun t => t <> "") (map String.rev PyStr.whitespace).
Proof. repeat constructor; discriminate. Qed.

Lemma lstrip_clean (s : string) :
  PyStr.drop_token PyStr.whitespace (PyStr.lstrip s) = None.
Proof.
  apply drop_tokens_clean; [apply whitespace_not_empty | reflexivity].
Qed.

Lemma rstrip_clean (s : string) :
  PyStr.drop_token (map String.rev PyStr.whitespace)
    (String.rev (PyStr.rstrip s)) = None.
Proof.
  unfold PyStr.rstrip. rewrite rev_rev.
  apply drop_tokens_clean; [apply rev_whitespace_not_empty|].
  rewrite rev_length. reflexivity.
Qed.

Lemma rstrip_prefix (s : string) : exists u, s = PyStr.rstrip s +:+ u.
Proof.
  unfold PyStr.rstrip.
  destruct (drop_tokens_suffix (map String.rev PyStr.whitespace)
              (String.length s) (String.rev s)) as (pre & H).
  exists (String.rev pre).
  rewrite <- rev_append, <- H, rev_rev. reflexivity.
Qed.

Lemma strip_clean_front (s : string) :
  PyStr.drop_token PyStr.whitespace (PyStr.strip s) = None.
Proof.
  unfold PyStr.strip. apply drop_token_None. intros w Hw.
  destruct (PyStr.drop_prefix w (PyStr.rstrip (PyStr.lstrip s)))
    as [r|] eqn:E; [|reflexivity].
  exfalso. destruct (rstrip_prefix (PyStr.lstrip s)) as (u & Hu).
  pose proof (lstrip_clean s) as Hc.
  rewrite drop_token_None in Hc. specialize (Hc w Hw).
  rewrite Hu in Hc. rewrite (drop_prefix_append _ _ u _ E) in Hc.
  discriminate.
Qed.

Lemma strip_clean_back (s : string) :
  PyStr.drop_token (map String.rev PyStr.whitespace)
    (String.rev (PyStr.strip s)) = None.
Proof. apply rstrip_clean. Qed.

Lemma strip_idem (s : string) : PyStr.strip (PyStr.strip s) = PyStr.strip s.
Proof.
  assert (Hl : PyStr.lstrip (PyStr.strip s) = PyStr.strip s).
  { apply drop_tokens_stable, strip_clean_front. }
  unfold PyStr.strip at 1. rewrite Hl. unfold PyStr.rstrip at 1.
  rewrite (drop_tokens_stable _ _ _ (strip_clean_back s)).
  apply rev_rev.
Qed.

Lemma strip_no_outer_whitespace (s : string) :
  no_outer_whitespace (PyStr.strip s).
Proof.
  intros w Hw. split.
  - pose proof (strip_clean_front s) as H.
    rewrite drop_token_None in H. exact (H w Hw).
  - pose proof (strip_clean_back s) as H.
    rewrite drop_token_None in H. apply H. apply in_map, Hw.
Qed.

Lemma isspace_in_whitespace (a : ascii) :
  PyStr.isspace a = true -> In (String a "") PyStr.whitespace.
Proof.
  destruct a as [[] [] [] [] [] [] [] []]; intros H;
    solve [discriminate H | vm_compute; tauto].
Qed.

Lemma strip_no_outer_space (s : string) : no_outer_space (PyStr.strip s).
Proof.
  split.
  - intros a t E. destruct (PyStr.isspace a) eqn:Ha; [|reflexivity].
    exfalso. apply isspace_in_whitespace in Ha.
    destruct (strip_no_outer_whitespace s _ Ha) as [H _].
    rewrite E in H. cbn [PyStr.drop_prefix] in H.
    rewrite Ascii.eqb_refl in H. discriminate.
  - intros t a E. destruct (PyStr.isspace a) eqn:Ha; [|reflexivity].
    exfalso. apply isspace_in_whitespace in Ha.
    destruct (strip_no_outer_whitespace s _ Ha) as [_ H].
    rewrite E, rev_snoc in H.
    change (String.rev (String a "")) with (String a "") in H.
    cbn [PyStr.drop_prefix] in H. rewrite Ascii.eqb_refl in H. discriminate.
Qed.

(** X27. The configuration holds trimmed values: the token, the raw
    chat and the join link neither start nor end with a white space
    character, of one byte or of several, and stripping them again
    changes nothing. *)
Theorem startup_values_are_trimmed py environ cfg :
  module_init py environ = inr cfg ->
  Forall (fun v => no_outer_space v /\ PyStr.strip v = v
                   /\ no_outer_whitespace v)
    [BOT_TOKEN cfg; REQUIRED_CHAT_RAW cfg; JOIN_URL cfg].
Proof.
  intros Hinit.
  destruct (module_init_fields py environ cfg Hinit) as (-> & -> & -> & _).
  assert (H : forall x,
             no_outer_space (PyStr.strip x)
             /\ PyStr.strip (PyStr.strip x) = PyStr.strip x
             /\ no_outer_whitespace (PyStr.strip x)).
  { intros x. split; [apply strip_no_outer_space|].
    split; [apply strip_idem | apply strip_no_outer_whitespace]. }
  constructor; [apply H|]. constructor; [apply H|].
  constructor; [apply H|]. constructor.
Qed.

Lemma startup_values_are_trimmed_witness :
  Forall (fun v => no_outer_space v /\ PyStr.strip v = v
                   /\ no_outer_whitespace v)
    [BOT_TOKEN Fixture.cfg_handle; REQUIRED_CHAT_RAW Fixture.cfg_handle;
     JOIN_URL Fixture.cfg_handle].
Proof.
  assert (Hinit : module_init ascii_builtins
                    {[ "BOT_TOKEN" := " 123:abc";
                       "REQUIRED_CHAT" := "@mychannel" ]}
                  = inr Fixture.cfg_handle).
  { vm_compute. reflexivity. }
  exact (startup_values_are_trimmed _ _ _ Hinit).
Defined.

(** ** A further property of the membership check *)

(** X28. [check_membership] makes one lookup, for the given user in
    [REQUIRED_CHAT]; it answers [True] exactly when the lookup returns
    one of the four joined statuses, and it raises exactly when the
    lookup raises, with the error of the lookup. *)
Theorem check_membership_answers cfg bot user_id w :
  lookup_requests (trace (check_membership cfg bot user_id) w)
  = [(REQUIRED_CHAT cfg, user_id)]
  /\ (outcome (check_membership cfg bot user_id) w = inr true
      <-> exists m,
            on_get_chat_member w (REQUIRED_CHAT cfg) user_id = inr m
            /\ In (ChatMember.status m)
                 [ChatMemberStatus.MEMBER; ChatMemberStatus.ADMINISTRATOR;
                  ChatMemberStatus.OWNER; ChatMemberStatus.RESTRICTED])
  /\ (forall x,
        outcome (check_membership cfg bot user_id) w = inl x
        <-> exists e,
              on_get_chat_member w (REQUIRED_CHAT cfg) user_id = inl e
              /\ x = ETelegram e).
Proof.
  unfold trace, outcome, check_membership, bind, get_chat_member, api, ret.
  cbv zeta.
  destruct (on_get_chat_member w (REQUIRED_CHAT cfg) user_id) as [e|m];
    cbn [fst snd lift_result lookup_requests omap list_omap app].
  - split; [reflexivity|]. split.
    + split; [discriminate|]. intros (m & [=] & _).
    + intros x. split.
      * intros [= <-]. eauto.
      * intros (e' & [= <-] & ->). reflexivity.
  - split; [reflexivity|]. split.
    + split.
      * intros [= Hj]. exists m. split; [reflexivity|].
        apply is_joined_spec in Hj. simpl. intuition congruence.
      * intros (m' & [= <-] & Hin). f_equal. apply is_joined_spec.
        simpl in Hin. intuition congruence.
    + intros x. split; [discriminate|]. intros (e & [=] & _).
Qed.
